(** * KnowledgeArchive: a shallow embedding of [_knowledge_archive.py]

    The archive keeps a dictionary from insight ids to insights, a counter
    from which ids are allocated, and a vector store (the [MemoStore]) that
    maps topics to insight ids.  Python's mutable object and the files it
    reads and writes are threaded through a state-and-exception monad;
    dictionaries are [gmap]s; distances and relevance scores are Python
    floats, that is IEEE 754 doubles: the primitive floats of the kernel. *)

From Stdlib Require Import QArith Ascii String Floats.
From stdpp Require Import gmap strings list fin_maps pretty.

Local Open Scope string_scope.
Set Warnings "-inexact-float".

(** ** Data model *)

(** [@dataclass class Insight]; [task_str] may be [None]. *)
Record Insight := mkInsight {
  id : string;
  insight_str : string;
  task_str : option string;
  topics : list string
}.

(** A match returned by the vector store: (topic, insight id, distance). *)
Definition memo_match : Type := string * string * float.

(** Modelled from the spec: the SimilarityIndex collaborator ([MemoStore],
    imported from [_memo_store.py], which is not among the sources).  It
    stores (key, value) associations, answers nearest-neighbour queries with
    a sequence of (matched key, value, distance) and flushes itself on
    request.  A query is a read; the calls are total.  [MemoStore_new
    verbosity reset path db] is the store opened at [path], where the
    database [db] was found. *)
Class MemoStore (M : Type) := {
  MemoStore_new : nat -> bool -> string -> M -> M;
  add_input_output_pair : string -> string -> M -> M;
  get_related_memos : string -> nat -> Q -> M -> list memo_match;
  save_memos : M -> M
}.

(** The parts of the Python runtime the archive calls: [pickle.dump] and
    [pickle.load] on the id-to-insight dictionary ([pickle_load] is [None]
    on a blob that does not unpickle) and [os.path.expanduser]. *)
Class Runtime (Blob : Type) := {
  pickle_dump : gmap string Insight -> Blob;
  pickle_load : Blob -> option (gmap string Insight);
  expanduser : string -> string
}.

(** The contract of [pickle]: what was dumped loads back unchanged. *)
Definition pickle_faithful {Blob} `{Runtime Blob} : Prop :=
  forall d : gmap string Insight, pickle_load (pickle_dump d) = Some d.

(** Exceptions the archive can raise.  [UnpicklingError] stands for
    whichever exception [pickle.load] raises on a file it cannot load. *)
Inductive exn :=
  | AssertionError (msg : string)
  | KeyError (key : string)
  | IndexError
  | ValueError
  | UnpicklingError.

Inductive outcome (A : Type) :=
  | Return (a : A)
  | Raise (e : exn).
Arguments Return {A} a.
Arguments Raise {A} e.

(** [str(n)] for a non-negative integer: its decimal digits. *)
Definition str (n : nat) : string := pretty n.

(** The newline character, written ["\n"] in the source. *)
Definition nl : string := String (Ascii.ascii_of_nat 10) EmptyString.

(** [posixpath.join(a, p1, p2, ...)]. *)
Definition os_path_join (a : string) (p : list string) : string :=
  foldl (fun path b =>
           if String.prefix "/" b then b
           else if bool_decide (path = "") || String.prefix "/" (String.rev path)
                then path +:+ b
                else path +:+ "/" +:+ b) a p.

(** [fmt.format(a1, a2, ...)] for a format string whose only fields are
    the automatically numbered [{}]: [IndexError] when the arguments run
    out, [ValueError] on a lone brace or any other field. *)
Fixpoint format (fmt : string) (args : list string) : outcome string :=
  match fmt with
  | EmptyString => Return EmptyString
  | String c rest =>
      if Ascii.eqb c "{"%char then
        match rest with
        | String c' rest' =>
            if Ascii.eqb c' "}"%char then
              match args with
              | a :: args' =>
                  match format rest' args' with
                  | Return s => Return (a +:+ s)
                  | Raise e => Raise e
                  end
              | [] => Raise IndexError
              end
            else Raise ValueError
        | EmptyString => Raise ValueError
        end
      else if Ascii.eqb c "}"%char then Raise ValueError
      else
        match format rest args with
        | Return s => Return (String c s)
        | Raise e => Raise e
        end
  end.

Section Archive.
Context {M Blob : Type} {MS : MemoStore M} {RT : Runtime Blob}.

(** What lives outside the archive object: the vector database, the
    files, and the current page of the page log. *)
Record World := mkWorld {
  memo_db : M;
  files : gmap string Blob;
  page : list string
}.

(** The fields of a [KnowledgeArchive] object.  Its [memo_store] is the
    handle on [memo_db]. *)
Record KnowledgeArchive := mkArchive {
  path_to_dict : string;
  uid_insight_dict : gmap string Insight;
  last_insight_id : nat
}.

Record Heap := mkHeap {
  self : KnowledgeArchive;
  world : World
}.

(** ** The monad of methods: state of the heap, and an exception or a value *)

Definition Py (A : Type) : Type := Heap -> outcome A * Heap.

#[global] Instance Py_ret : MRet Py := fun A a h => (Return a, h).

#[global] Instance Py_bind : MBind Py := fun A B k m h =>
  match m h with
  | (Return a, h') => k a h'
  | (Raise e, h') => (Raise e, h')
  end.

Definition raise {A} (e : exn) : Py A := fun h => (Raise e, h).

Definition get_self : Py KnowledgeArchive := fun h => (Return (self h), h).

Definition get_world : Py World := fun h => (Return (world h), h).

Definition put_self (a : KnowledgeArchive) : Py unit :=
  fun h => (Return tt, mkHeap a (world h)).

Definition put_world (w : World) : Py unit :=
  fun h => (Return tt, mkHeap (self h) w).

(** [assert cond, msg] *)
Definition assert_ (cond : bool) (msg : string) : Py unit :=
  if cond then mret tt else raise (AssertionError msg).

(** [for x in xs: body(x)] *)
Fixpoint for_ {A} (xs : list A) (body : A -> Py unit) : Py unit :=
  match xs with
  | [] => mret tt
  | x :: xs' => body x ;; for_ xs' body
  end.

(** [for x in xs: acc = body(acc, x)], for a loop that updates a local. *)
Fixpoint for_acc {A B} (xs : list A) (acc : B) (body : B -> A -> Py B) : Py B :=
  match xs with
  | [] => mret acc
  | x :: xs' => acc' ← body acc x; for_acc xs' acc' body
  end.

(** [d[k]] on a dictionary: [KeyError] when [k] is missing. *)
Definition getitem {V} (d : gmap string V) (k : string) : Py V :=
  match d !! k with
  | Some v => mret v
  | None => raise (KeyError k)
  end.

(** [parent_page.add_lines(line)] *)
Definition add_lines (line : string) : Py unit :=
  w ← get_world;
  put_world (mkWorld (memo_db w) (files w) (page w ++ [line])%list).

(** Assignments to the fields of [self]. *)
Definition set_path_to_dict (p : string) : Py unit :=
  a ← get_self; put_self (mkArchive p (uid_insight_dict a) (last_insight_id a)).

Definition set_uid_insight_dict (d : gmap string Insight) : Py unit :=
  a ← get_self; put_self (mkArchive (path_to_dict a) d (last_insight_id a)).

Definition set_last_insight_id (n : nat) : Py unit :=
  a ← get_self; put_self (mkArchive (path_to_dict a) (uid_insight_dict a) n).

(** A pure computation that may raise, run inside a method. *)
Definition lift {A} (o : outcome A) : Py A := fun h => (o, h).

(** ** The methods of [KnowledgeArchive] *)

(** [KnowledgeArchive.__init__], run on the freshly allocated object, with
    a page logger passed as [page_log]. *)
Definition init (verbosity : nat) (reset : bool)
    (memory_dir run_subdir : string) : Py unit :=
  let memory_dir := expanduser memory_dir in
  let path_to_db_dir := os_path_join memory_dir [run_subdir; "memo_store"] in
  let path := os_path_join memory_dir [run_subdir; "uid_insight_dict.pkl"] in
  set_path_to_dict path;;
  add_lines "Creating KnowedgeArchive object";;
  w ← get_world;
  put_world (mkWorld (MemoStore_new verbosity reset path_to_db_dir (memo_db w))
                     (files w) (page w));;
  (* Load or create the associated memo dict on disk. *)
  set_uid_insight_dict ∅;;
  set_last_insight_id 0;;
  match (if reset then None else files w !! path) with
  | Some f =>
      line ← lift (format (nl +:+ "LOADING INSIGHTS FROM DISK  {}") [path]);
      add_lines line;;
      line ← lift (format "    Location = {}" [path]);
      add_lines line;;
      match pickle_load f with
      | Some d =>
          set_uid_insight_dict d;;
          a ← get_self;
          set_last_insight_id (size (uid_insight_dict a));;
          a ← get_self;
          line ← lift (format (nl +:+ "{} INSIGHTS LOADED")
                              [str (size (uid_insight_dict a))]);
          add_lines line
      | None => raise UnpicklingError
      end
  | None => mret tt
  end.

(** [KnowledgeArchive(verbosity, reset, memory_dir, run_subdir, page_log)]:
    the constructor call, on a world [w]. *)
Definition KnowledgeArchive_new (verbosity : nat) (reset : bool)
    (memory_dir run_subdir : string) (w : World) : outcome unit * Heap :=
  init verbosity reset memory_dir run_subdir (mkHeap (mkArchive "" ∅ 0) w).

Definition save_archive : Py unit :=
  w ← get_world;
  put_world (mkWorld (save_memos (memo_db w)) (files w) (page w));;
  a ← get_self;
  line ← lift (format (nl +:+ "SAVING INSIGHTS TO DISK  {}") [path_to_dict a]);
  add_lines line;;
  w ← get_world;
  put_world (mkWorld (memo_db w)
                     (<[path_to_dict a := pickle_dump (uid_insight_dict a)]> (files w))
                     (page w)).

(** [self.memo_store.add_input_output_pair(topic, id_str)] *)
Definition memo_add (topic id_str : string) : Py unit :=
  w ← get_world;
  put_world (mkWorld (add_input_output_pair topic id_str (memo_db w))
                     (files w) (page w)).

(** [self.last_insight_id += 1] *)
Definition bump_last_insight_id : Py unit :=
  a ← get_self; set_last_insight_id (last_insight_id a + 1).

(** [self.uid_insight_dict[key] = insight] *)
Definition setitem_uid (key : string) (insight : Insight) : Py unit :=
  a ← get_self; set_uid_insight_dict (<[key := insight]> (uid_insight_dict a)).

(** [add_insight]: adds an insight to the knowledge archive. *)
Definition add_insight (insight_str : string) (task_str : option string)
    (topics : option (list string)) : Py unit :=
  match topics with
  | None => raise (AssertionError "For now, the topics list must be provided.")
  | Some topics =>
      bump_last_insight_id;;
      a ← get_self;
      let id_str := str (last_insight_id a) in
      let insight := mkInsight id_str insight_str task_str topics in
      for_ topics (fun topic =>
        (* Add a mapping in the vec DB from each topic to the insight. *)
        memo_add topic id_str);;
      setitem_uid id_str insight;;
      save_archive
  end.

(** [add_demonstration]: adds a task-demonstration pair (as a single
    insight) to the knowledge archive.  [topics] is a [List[str]]. *)
Definition add_demonstration (task demonstration : string)
    (topics : list string) : Py unit :=
  bump_last_insight_id;;
  a ← get_self;
  let id_str := str (last_insight_id a) in
  insight_str ← lift (format ("Example task:" +:+ nl +:+ nl +:+ "{}" +:+ nl +:+
                              "Example solution:" +:+ nl +:+ nl +:+ "{}")
                             [task; demonstration]);
  let insight := mkInsight id_str insight_str (Some task) topics in
  for_ topics (fun topic =>
    (* Add a mapping in the vec DB from each topic to the insight. *)
    memo_add topic id_str);;
  setitem_uid id_str insight;;
  save_archive.

(** The approximate borderline between relevant and irrelevant topic
    matches: [relevance_conversion_threshold = 1.7]. *)
Definition relevance_conversion_threshold : float := 1.7%float.

(** [x < 0] on scores. *)
Definition negative (x : float) : bool := (x <? 0)%float.

(** The first loop of [get_relevant_insights]:
    [matches.extend(self.memo_store.get_related_memos(topic, 25, 100))]
    for every topic. *)
Definition collect_matches (topics : list string) : Py (list memo_match) :=
  for_acc topics [] (fun matches topic =>
    w ← get_world;
    mret (matches ++ get_related_memos topic 25 100%Q (memo_db w))%list).

(** The body of the second loop: one match added to the relevance dict. *)
Definition add_relevance (insight_relevance_dict : gmap string float)
    (match_ : memo_match) : Py (gmap string float) :=
  let relevance := (relevance_conversion_threshold - match_.2)%float in
  let insight_id := match_.1.2 in
  a ← get_self;
  insight ← getitem (uid_insight_dict a) insight_id;
  let insight_str := insight_str insight in
  match insight_relevance_dict !! insight_str with
  | Some r => mret (<[insight_str := (r + relevance)%float]> insight_relevance_dict)
  | None => mret (<[insight_str := relevance]> insight_relevance_dict)
  end.

(** [list(d.keys())]: every key once.  Python lists them in insertion
    order; the loop over them gives the same dict in any order. *)
Definition keys {V} (d : gmap string V) : list string := (map_to_list d).*1.

(** The body of the third loop: a negative entry is deleted. *)
Definition drop_negative (insight_relevance_dict : gmap string float)
    (insight : string) : Py (gmap string float) :=
  r ← getitem insight_relevance_dict insight;
  if negative r then mret (delete insight insight_relevance_dict)
  else mret insight_relevance_dict.

(** [get_relevant_insights]: returns any insights from the knowledge
    archive that are relevant to the given task or topics. *)
Definition get_relevant_insights (task_str : option string)
    (topics : option (list string)) : Py (gmap string float) :=
  assert_ (bool_decide (is_Some task_str) || bool_decide (is_Some topics))
    "Either the task string or the topics list must be provided.";;
  match topics with
  | None => raise (AssertionError
      "For now, the topics list is always required, because it won't be generated.")
  | Some topics =>
      (* Build a dict of insight-relevance pairs. *)
      let insight_relevance_dict : gmap string float := ∅ in
      (* Process the matching topics. *)
      matches ← collect_matches topics;
      insight_relevance_dict ← for_acc matches insight_relevance_dict add_relevance;
      (* Filter out insights with overall relevance below zero. *)
      insight_relevance_dict ←
        for_acc (keys insight_relevance_dict) insight_relevance_dict drop_negative;
      mret insight_relevance_dict
  end.

End Archive.

Arguments World : clear implicits.
Arguments Heap : clear implicits.
Arguments Py : clear implicits.

(** ** What the statements below observe *)

(** The text [add_demonstration] builds from a task and its solution. *)
Definition demo_text (task demonstration : string) : string :=
  "Example task:" +:+ nl +:+ nl +:+ task +:+ nl +:+
  "Example solution:" +:+ nl +:+ nl +:+ demonstration.

Section Observations.
Context {M Blob : Type} {MS : MemoStore M} {RT : Runtime Blob}.

(** The archive object after a call that stored [ins] under a new id. *)
Definition stored (a : KnowledgeArchive) (ins : Insight) : KnowledgeArchive :=
  mkArchive (path_to_dict a) (<[id ins := ins]> (uid_insight_dict a))
            (last_insight_id a + 1).

(** The world after that call: every topic indexed, both stores saved, one
    line logged. *)
Definition indexed_and_saved (w : World M Blob) (a' : KnowledgeArchive)
    (ins : Insight) (line : string) : World M Blob :=
  mkWorld
    (save_memos (foldl (fun db topic => add_input_output_pair topic (id ins) db)
                       (memo_db w) (topics ins)))
    (<[path_to_dict a' := pickle_dump (uid_insight_dict a')]> (files w))
    (page w ++ [line])%list.

(** The matches [get_relevant_insights] gathers for [tps]: the answers to
    its queries, one topic after the other. *)
Definition all_matches (h : Heap M Blob) (tps : list string) : list memo_match :=
  tps ≫= (fun topic => get_related_memos topic 25 100%Q (memo_db (world h))).

(** The insight text a match resolves to, when its id is in the archive. *)
Definition resolve (h : Heap M Blob) (m : memo_match) : option string :=
  insight_str <$> uid_insight_dict (self h) !! m.1.2.

(** The matches among [all_matches] that resolve to the text [t]. *)
Definition matches_of (h : Heap M Blob) (tps : list string) (t : string)
    : list memo_match :=
  List.filter (fun m => bool_decide (resolve h m = Some t)) (all_matches h tps).

(** Specification of the score of [t]: the double [1.7 - distance] of the
    first match that resolves to [t], to which the doubles [1.7 - distance]
    of the further ones are added one by one, in the order of the matches;
    nothing without such a match. *)
Definition spec_relevance (h : Heap M Blob) (tps : list string) (t : string)
    : option float :=
  match matches_of h tps t with
  | [] => None
  | m :: ms => Some (foldl (fun total m' => (total + (1.7 - m'.2))%float)
                           (1.7 - m.2)%float ms)
  end.

(** The number a double stands for (0 for an infinity or a NaN). *)
Definition float_to_Q (x : float) : Q :=
  match Prim2SF x with
  | S754_finite s m e =>
      ((if s then -1 else 1) * inject_Z (Z.pos m) * Qpower 2 e)%Q
  | _ => 0%Q
  end.

(** The sum of [1.7 - distance] over the matches that resolve to [t], as a
    sum of rational numbers. *)
Definition exact_relevance (h : Heap M Blob) (tps : list string) (t : string) : Q :=
  foldr Qplus 0%Q
    (map (fun m => ((17 # 10) - float_to_Q m.2)%Q) (matches_of h tps t)).

(** One more score poured into the bucket of a text. *)
Definition merge_score (o : option float) (r : float) : option float :=
  Some (match o with Some v => (v + r)%float | None => r end).

(** What the last loop leaves of a bucket. *)
Definition keep_score (r : float) : option float :=
  if negative r then None else Some r.

(** The relevances of the matches among [ms] that resolve to [t]. *)
Definition scores_of (h : Heap M Blob) (t : string) (ms : list memo_match)
    : list float :=
  map (fun m => (relevance_conversion_threshold - m.2)%float)
      (List.filter (fun m => bool_decide (resolve h m = Some t)) ms).

(** The relevance dict after one more match, which resolves to [ins]. *)
Definition poured (acc : gmap string float) (m : memo_match) (ins : Insight)
    : gmap string float :=
  match acc !! insight_str ins with
  | Some r =>
      <[insight_str ins := (r + (relevance_conversion_threshold - m.2))%float]> acc
  | None => <[insight_str ins := (relevance_conversion_threshold - m.2)%float]> acc
  end.

(** The precondition of the lookup on line 92: every matched id is a key. *)
Definition all_resolve (h : Heap M Blob) (tps : list string) : Prop :=
  forall m, m ∈ all_matches h tps -> is_Some (uid_insight_dict (self h) !! m.1.2).

(** Where an archive over [memory_dir] and [run_subdir] keeps its snapshot. *)
Definition snapshot_path (memory_dir run_subdir : string) : string :=
  os_path_join (expanduser memory_dir) [run_subdir; "uid_insight_dict.pkl"].

(** The snapshot the constructor reads, if it reads one. *)
Definition snapshot_read (reset : bool) (memory_dir run_subdir : string)
    (w : World M Blob) : option Blob :=
  if reset then None else files w !! snapshot_path memory_dir run_subdir.

(** The id counter equals the number of entries. *)
Definition counter_is_size (h : Heap M Blob) : Prop :=
  last_insight_id (self h) = size (uid_insight_dict (self h)).

(** Every key is the decimal string of a number up to the counter. *)
Definition well_numbered (h : Heap M Blob) : Prop :=
  forall key, is_Some (uid_insight_dict (self h) !! key) ->
    exists k, k <= last_insight_id (self h) /\ key = str k.

(** A call that adds to the archive. *)
Inductive call :=
  | AddInsight (insight_str : string) (task_str : option string)
               (topics : option (list string))
  | AddDemonstration (task demonstration : string) (topics : list string).

Definition run_call (c : call) : Py M Blob unit :=
  match c with
  | AddInsight i t tps => add_insight i t tps
  | AddDemonstration t d tps => add_demonstration t d tps
  end.

(** The calls one after the other, as long as none raises. *)
Definition run_calls (cs : list call) : Py M Blob unit := for_ cs run_call.

(** [ins] carries what the call [c] was given. *)
Definition stored_by (c : call) (ins : Insight) : Prop :=
  match c with
  | AddInsight i t tps =>
      insight_str ins = i /\ task_str ins = t /\ tps = Some (topics ins)
  | AddDemonstration t d tps =>
      insight_str ins = demo_text t d /\ task_str ins = Some t /\ topics ins = tps
  end.

End Observations.

(** ** Concrete collaborators, for running the methods on examples *)

(** A table-driven vector store: an entry [(k, v, d)] is an association
    from [k] to [v] that a query for [k] reports at distance [d]; the
    associations added through the archive are at distance 0. *)
Definition table_store : Type := list memo_match.

#[global] Instance table_MemoStore : MemoStore table_store := {|
  MemoStore_new _ reset _ db := if reset then [] else db;
  add_input_output_pair k v db := (db ++ [(k, v, 0%float)])%list;
  get_related_memos q n_results threshold db :=
    take n_results
      (List.filter (fun m => String.eqb m.1.1 q &&
                            negb (Qle_bool threshold (float_to_Q m.2))) db);
  save_memos db := db
|}.

(** Pickling to the list of the dictionary's items. *)
#[global] Instance items_Runtime : Runtime (list (string * Insight)) := {|
  pickle_dump d := map_to_list d;
  pickle_load b := Some (list_to_map b);
  expanduser p := p
|}.

(** ** Example archives *)

Definition example_world : World table_store (list (string * Insight)) :=
  mkWorld [] ∅ [].

(** A new archive in an empty directory. *)
Definition empty_heap : Heap table_store (list (string * Insight)) :=
  (KnowledgeArchive_new 0 false "tmp/memory" "run1" example_world).2.

(** An archive of three insights, two of them with the same text, over a
    vector store that reports the first at distances 1.0 and 1.2, the second
    at 2.0, and an id no insight has. *)
Definition scored_heap : Heap table_store (list (string * Insight)) :=
  mkHeap
    (mkArchive "tmp/memory/run1/uid_insight_dict.pkl"
       (list_to_map
          [("1", mkInsight "1" "carry an umbrella" None ["weather"; "rain"]);
           ("2", mkInsight "2" "book early" (Some "plan a trip") ["rain"]);
           ("3", mkInsight "3" "carry an umbrella" None ["storm"])])
       3)
    (mkWorld
       [("weather", "1", 1%float); ("rain", "1", 1.2%float);
        ("rain", "2", 2%float); ("storm", "3", 0.5%float);
        ("fog", "9", 0.25%float)]
       ∅ []).

(** A directory whose snapshot holds one insight under the key ["2"], and
    the archive constructed over it. *)
Definition misnumbered_world : World table_store (list (string * Insight)) :=
  mkWorld []
    {[ "tmp/memory/run1/uid_insight_dict.pkl" :=
         [("2", mkInsight "2" "book early" (Some "plan a trip") ["rain"])] ]}
    [].

Definition misnumbered_heap : Heap table_store (list (string * Insight)) :=
  (KnowledgeArchive_new 0 false "tmp/memory" "run1" misnumbered_world).2.

(** Three calls in a row. *)
Definition three_calls : list call :=
  [AddInsight "carry an umbrella" None (Some ["weather"; "rain"]);
   AddDemonstration "T" "D" ["x"];
   AddInsight "book early" (Some "plan a trip") (Some [])].

(** The archive after [three_calls] on a new one. *)
Definition after_three_calls : Heap table_store (list (string * Insight)) :=
  (run_calls three_calls empty_heap).2.

(** What [get_relevant_insights] returns on [scored_heap] for the topics
    weather, rain and storm. *)
Definition scored_result : gmap string float :=
  {[ "carry an umbrella" := 2.3999999999999999%float ]}.

(** An archive with one insight, over a vector store that reports it for
    five topics, at distances 1.5, 1.5, 1.5, 2.0 and 2.0. *)
Definition rounding_heap : Heap table_store (list (string * Insight)) :=
  mkHeap
    (mkArchive "tmp/memory/run1/uid_insight_dict.pkl"
       {[ "1" := mkInsight "1" "carry an umbrella" None
                   ["weather"; "rain"; "storm"; "fog"; "wind"] ]}
       1)
    (mkWorld
       [("weather", "1", 1.5%float); ("rain", "1", 1.5%float);
        ("storm", "1", 1.5%float); ("fog", "1", 2%float);
        ("wind", "1", 2%float)]
       ∅ []).

(** ** Sessions *)

Section Sessions.
Context {M Blob : Type} {MS : MemoStore M} {RT : Runtime Blob}.

(** Every insight sits under its own id. *)
Definition key_is_id (h : Heap M Blob) : Prop :=
  forall key ins, uid_insight_dict (self h) !! key = Some ins -> id ins = key.

(** One session: an archive is constructed over the directory, without
    reset, and the calls are made on it. *)
Definition run_session (memory_dir run_subdir : string) (cs : list call)
    (w : World M Blob) : outcome unit * Heap M Blob :=
  match KnowledgeArchive_new 0 false memory_dir run_subdir w with
  | (Return _, h) => run_calls cs h
  | (Raise e, h) => (Raise e, h)
  end.

(** Sessions one after the other over the same directory, each on the world
    the one before left. *)
Fixpoint run_sessions (memory_dir run_subdir : string) (ss : list (list call))
    (w : World M Blob) : outcome unit * World M Blob :=
  match ss with
  | [] => (Return tt, w)
  | cs :: ss' =>
      match run_session memory_dir run_subdir cs w with
      | (Return _, h) => run_sessions memory_dir run_subdir ss' (world h)
      | (Raise e, h) => (Raise e, world h)
      end
  end.
(** Reopening the directory of [h] gives the archive object of [h] again. *)
Definition reopens (memory_dir run_subdir : string) (h : Heap M Blob) : Prop :=
  path_to_dict (self h) = snapshot_path memory_dir run_subdir /\
  counter_is_size h /\ well_numbered h /\
  exists h2, KnowledgeArchive_new 0 false memory_dir run_subdir (world h)
             = (Return tt, h2) /\ self h2 = self h.

End Sessions.

(** Three sessions over a new directory, the second without a call. *)
Definition three_sessions : list (list call) :=
  [[AddInsight "carry an umbrella" None (Some ["weather"; "rain"]);
    AddDemonstration "T" "D" ["x"]];
   [];
   [AddInsight "book early" (Some "plan a trip") (Some [])]].

(** * [eval_self_teaching.py] *)

(** The values found in the settings and in a task file: ints and strings. *)
Inductive pyval :=
  | PyInt (z : Z)
  | PyStr (s : string).

(** What can go wrong in [eval_self_teaching]: the exceptions of the
    interpreter, and whatever a collaborator raises. *)
Inductive eval_exn :=
  | ZeroDivisionError
  | TypeError
  | OverflowError
  | Builtin (e : exn)
  | External (name : string).

Inductive result (A : Type) :=
  | Ok (a : A)
  | Err (e : eval_exn).
Arguments Ok {A} a.
Arguments Err {A} e.

(** The collaborators of the evaluation, on a state [S] they share: the
    page logger, the grader and the apprentice (none of them among the
    sources), [load_yaml_file], and the float arithmetic of
    [round((a / b) * 100)] for a divisor that is not zero.  The awaited calls
    run to completion one after the other. *)
Class Lab (S : Type) := {
  logger_enter_function : S -> S;
  logger_info : string -> S -> S;
  logger_leave_function : S -> S;
  Grader_new : S -> S;
  load_yaml_file : pyval -> S -> result (gmap string pyval) * S;
  reset_memory : S -> result unit * S;
  train_on_task : pyval -> pyval -> S -> result unit * S;
  test_apprentice : pyval -> pyval -> pyval -> S -> result (Z * Z) * S;
  round_percent : Z -> Z -> result Z
}.

Section EvalSelfTeaching.
Context {S : Type} {LB : Lab S}.

Definition Run (A : Type) : Type := S -> result A * S.

#[global] Instance Run_ret : MRet Run := fun A a s => (Ok a, s).

#[global] Instance Run_bind : MBind Run := fun A B k m s =>
  match m s with
  | (Ok a, s') => k a s'
  | (Err e, s') => (Err e, s')
  end.

Definition fail {A} (e : eval_exn) : Run A := fun s => (Err e, s).

(** A call that only changes the state. *)
Definition tell (f : S -> S) : Run unit := fun s => (Ok tt, f s).

(** [d[k]] *)
Definition subscript (d : gmap string pyval) (k : string) : Run pyval :=
  match d !! k with
  | Some v => mret v
  | None => fail (Builtin (KeyError k))
  end.

(** [fmt.format(n)] for an int [n]. *)
Definition format_int (fmt : string) (n : Z) : Run string :=
  match format fmt [pretty n] with
  | Return s => mret s
  | Raise e => fail (Builtin e)
  end.

(** [round((a / b) * 100)] on ints. *)
Definition success_rate (a b : Z) : Run Z :=
  if (b =? 0)%Z then fail ZeroDivisionError
  else fun s => (round_percent a b, s).

(** The number of rounds of [for _ in range(n)]. *)
Definition range_len (n : pyval) : Run nat :=
  match n with
  | PyInt z => mret (Z.to_nat z)
  | PyStr _ => fail TypeError
  end.

(** [total += n] for an int [total]. *)
Definition add_to (total : Z) (n : pyval) : Run Z :=
  match n with
  | PyInt z => mret (total + z)%Z
  | PyStr _ => fail TypeError
  end.

(** [n] rounds of a loop body that updates the locals [acc]. *)
Fixpoint repeat_acc {B} (n : nat) (acc : B) (body : B -> Run B) : Run B :=
  match n with
  | O => mret acc
  | Datatypes.S n' => acc' ← body acc; repeat_acc n' acc' body
  end.

(** One round of the loop, on the totals (successes on task 1, successes on
    task 2, trials). *)
Definition one_loop (task_description_1 expected_answer_1
    task_description_2 expected_answer_2 num_final_test_trials : pyval)
    (totals : Z * Z * Z) : Run (Z * Z * Z) :=
  let '(total_num_successes_1, total_num_successes_2, total_num_trials) := totals in
  (* Train on the first task. *)
  train_on_task task_description_1 expected_answer_1;;
  (* Test on the first task. *)
  '(num_successes, num_trials) ←
    test_apprentice task_description_1 expected_answer_1 num_final_test_trials;
  rate ← success_rate num_successes num_trials;
  line ← format_int "Task 1 success rate:  {}%" rate;
  tell (logger_info line);;
  let total_num_successes_1 := (total_num_successes_1 + num_successes)%Z in
  (* Test on the second task. *)
  '(num_successes, num_trials) ←
    test_apprentice task_description_2 expected_answer_2 num_final_test_trials;
  rate ← success_rate num_successes num_trials;
  line ← format_int "Task 2 success rate:  {}%" rate;
  tell (logger_info line);;
  let total_num_successes_2 := (total_num_successes_2 + num_successes)%Z in
  total_num_trials ← add_to total_num_trials num_final_test_trials;
  tell (logger_info "");;
  mret (total_num_successes_1, total_num_successes_2, total_num_trials).

(** [eval_self_teaching]: evaluates the ability of an agent to learn quickly
    from its own trial and error. *)
Definition eval_self_teaching (settings : gmap string pyval) : Run string :=
  tell logger_enter_function;;
  num_loops ← subscript settings "num_loops";
  num_final_test_trials ← subscript settings "num_final_test_trials";
  tell Grader_new;;
  (* Load the specified data. *)
  task_file_1 ← subscript settings "task_file_1";
  task_dict_1 ← load_yaml_file task_file_1;
  task_description_1 ← subscript task_dict_1 "task_description";
  expected_answer_1 ← subscript task_dict_1 "expected_answer";
  (* Test generalization on this different, similar task. *)
  task_file_2 ← subscript settings "task_file_2";
  task_dict_2 ← load_yaml_file task_file_2;
  task_description_2 ← subscript task_dict_2 "task_description";
  expected_answer_2 ← subscript task_dict_2 "expected_answer";
  (* Start the test with empty memory. *)
  reset_memory;;
  rounds ← range_len num_loops;
  '(total_num_successes_1, total_num_successes_2, total_num_trials) ←
    repeat_acc rounds (0, 0, 0)%Z
      (one_loop task_description_1 expected_answer_1
                task_description_2 expected_answer_2 num_final_test_trials);
  overall_success_rate_1 ← success_rate total_num_successes_1 total_num_trials;
  overall_success_rate_2 ← success_rate total_num_successes_2 total_num_trials;
  results_str_1 ← format_int "Overall task 1 success rate:  {}%" overall_success_rate_1;
  results_str_2 ← format_int "Overall task 2 success rate:  {}%" overall_success_rate_2;
  tell (logger_info (nl +:+ results_str_1));;
  tell (logger_info results_str_2);;
  tell logger_leave_function;;
  mret (nl +:+ "eval_self_teaching" +:+ nl +:+ results_str_1 +:+ nl +:+ results_str_2).

End EvalSelfTeaching.
Arguments Run : clear implicits.

(** ** A laboratory that records the calls made to it *)

Inductive event :=
  | EnterFunction
  | Info (line : string)
  | LeaveFunction
  | NewGrader
  | LoadYaml (file : pyval)
  | ResetMemory
  | Train (task expected_answer : pyval)
  | Test (task expected_answer num_trials : pyval).

(** The task files there are, the pairs (successes, trials) the grader will
    report, in order, and the calls made so far. *)
Record lab_state := mkLab {
  task_files : gmap string (gmap string pyval);
  answers : list (Z * Z);
  trace : list event
}.

Definition record (e : event) (s : lab_state) : lab_state :=
  mkLab (task_files s) (answers s) (trace s ++ [e]).

(** A stand-in for the float arithmetic in the examples: the integer
    nearest to [100 * a / b], ties to the even one. *)
Definition nearest_percent (a b : Z) : Z :=
  let n := (100 * a * Z.sgn b)%Z in
  let d := Z.abs b in
  let q := (n / d)%Z in
  let r := (n mod d)%Z in
  if (2 * r <? d)%Z then q
  else if (d <? 2 * r)%Z then (q + 1)%Z
  else if Z.even q then q else (q + 1)%Z.

(** The recording laboratory, for the float arithmetic [rounding] of
    [round((a / b) * 100)]: no other call fails as long as the task files
    are there and the grader has a report left. *)
Definition recording_with (rounding : Z -> Z -> result Z) : Lab lab_state := {|
  logger_enter_function := record EnterFunction;
  logger_info line := record (Info line);
  logger_leave_function := record LeaveFunction;
  Grader_new := record NewGrader;
  load_yaml_file file s :=
    match file with
    | PyStr path =>
        match task_files s !! path with
        | Some d => (Ok d, record (LoadYaml file) s)
        | None => (Err (External "FileNotFoundError"), record (LoadYaml file) s)
        end
    | PyInt _ => (Err TypeError, record (LoadYaml file) s)
    end;
  reset_memory s := (Ok tt, record ResetMemory s);
  train_on_task task expected s := (Ok tt, record (Train task expected) s);
  test_apprentice task expected num_trials s :=
    match answers s with
    | a :: rest =>
        (Ok a, mkLab (task_files s) rest
                     (trace s ++ [Test task expected num_trials]))
    | [] => (Err (External "StopIteration"), record (Test task expected num_trials) s)
    end;
  round_percent := rounding
|}.

#[global] Instance recording_Lab : Lab lab_state :=
  recording_with (fun a b => Ok (nearest_percent a b)).

(** The calls to the apprentice and the grader among the recorded ones. *)
Definition lab_calls (es : list event) : list event :=
  List.filter (fun e => match e with
                        | ResetMemory | Train _ _ | Test _ _ _ => true
                        | _ => false
                        end) es.

(** Settings and task files for an evaluation of two rounds. *)
Definition example_settings : gmap string pyval :=
  list_to_map [("num_loops", PyInt 2); ("num_final_test_trials", PyInt 4);
               ("task_file_1", PyStr "task1.yaml");
               ("task_file_2", PyStr "task2.yaml")].

Definition example_task (description answer : string) : gmap string pyval :=
  list_to_map [("task_description", PyStr description);
               ("expected_answer", PyStr answer)].

Definition example_lab : lab_state :=
  mkLab (list_to_map [("task1.yaml", example_task "add 2 and 3" "5");
                      ("task2.yaml", example_task "add 4 and 5" "9")])
        [(1, 4); (0, 4); (3, 4); (2, 4)]%Z
        [].

(** The successes the grader reported, for the first task and for the
    second: the reports come in pairs, one per task and round. *)
Fixpoint successes (reports : list (Z * Z)) : Z * Z :=
  match reports with
  | r1 :: r2 :: rest =>
      let '(s1, s2) := successes rest in ((r1.1 + s1)%Z, (r2.1 + s2)%Z)
  | _ => (0, 0)%Z
  end.

(** The text [eval_self_teaching] returns for the overall rates [x], [y]. *)
Definition results_text (x y : Z) : string :=
  nl +:+ "eval_self_teaching" +:+ nl +:+
  ("Overall task 1 success rate:  " +:+ pretty x +:+ "%") +:+ nl +:+
  ("Overall task 2 success rate:  " +:+ pretty y +:+ "%").

(** A report the rate of which [rounding] computes. *)
Definition rated (rounding : Z -> Z -> result Z) (a : Z * Z) : Prop :=
  a.2 <> 0%Z /\ exists p, rounding a.1 a.2 = Ok p.

(** The calls to the apprentice and the grader in one round. *)
Definition round_calls (task1 answer1 task2 answer2 : pyval) (t : Z) : list event :=
  [Train task1 answer1; Test task1 answer1 (PyInt t); Test task2 answer2 (PyInt t)].

(** * Facts about the embedding *)

Lemma append_empty_r (s : string) : s +:+ "" = s.
Proof.
  induction s as [|c s IH]; [reflexivity |].
  change (String c (s +:+ "") = String c s). by rewrite IH.
Qed.

Lemma format_demo (task demonstration : string) :
  format ("Example task:" +:+ nl +:+ nl +:+ "{}" +:+ nl +:+
          "Example solution:" +:+ nl +:+ nl +:+ "{}") [task; demonstration]
  = Return (demo_text task demonstration).
Proof.
  unfold demo_text.
  rewrite <- (append_empty_r demonstration) at 2.
  reflexivity.
Qed.

Lemma items_pickle_faithful : pickle_faithful (Blob := list (string * Insight)).
Proof. intros d. simpl. f_equal. apply list_to_map_to_list. Qed.


Lemma str_inj (m n : nat) : str m = str n -> m = n.
Proof. unfold str. apply (inj pretty). Qed.

Lemma foldl_merge_score_Some (rs : list float) (v : float) :
  foldl merge_score (Some v) rs = Some (foldl PrimFloat.add v rs).
Proof.
  revert v. induction rs as [|r rs IH]; intros v; [done|]. simpl. apply IH.
Qed.

Lemma foldl_add_scores (ms : list memo_match) (v : float) :
  foldl PrimFloat.add v
    (map (fun m => (relevance_conversion_threshold - m.2)%float) ms)
  = foldl (fun total m' => (total + (1.7 - m'.2))%float) v ms.
Proof.
  revert v. induction ms as [|m ms IH]; intros v; [done|]. simpl. apply IH.
Qed.

Section Facts.
Context {M Blob : Type} {MS : MemoStore M} {RT : Runtime Blob}.
Implicit Types (h : Heap M Blob) (a : KnowledgeArchive) (w : World M Blob).

Lemma for_memo_add (tps : list string) (id_str : string) h :
  for_ tps (fun topic => memo_add topic id_str) h =
  (Return tt,
   mkHeap (self h)
     (mkWorld (foldl (fun db topic => add_input_output_pair topic id_str db)
                     (memo_db (world h)) tps)
              (files (world h)) (page (world h)))).
Proof.
  revert h. induction tps as [|topic tps IH]; intros [a [db fs pg]].
  - reflexivity.
  - simpl. unfold mbind, Py_bind. simpl. by rewrite IH.
Qed.

Lemma save_archive_run h :
  exists line,
    save_archive h =
    (Return tt,
     mkHeap (self h)
       (mkWorld (save_memos (memo_db (world h)))
          (<[path_to_dict (self h) := pickle_dump (uid_insight_dict (self h))]>
             (files (world h)))
          (page (world h) ++ [line])%list)).
Proof. destruct h as [a [db fs pg]]. by eexists. Qed.

Lemma add_insight_run (istr : string) (tstr : option string)
    (tps : list string) h :
  let ins := mkInsight (str (last_insight_id (self h) + 1)) istr tstr tps in
  exists line,
    add_insight istr tstr (Some tps) h =
    (Return tt,
     mkHeap (stored (self h) ins)
            (indexed_and_saved (world h) (stored (self h) ins) ins line)).
Proof.
  destruct h as [a [db fs pg]]. simpl. eexists.
  unfold add_insight, mbind, Py_bind. simpl.
  rewrite for_memo_add. simpl. reflexivity.
Qed.

Lemma add_demonstration_run (task demonstration : string)
    (tps : list string) h :
  let ins := mkInsight (str (last_insight_id (self h) + 1))
                       (demo_text task demonstration) (Some task) tps in
  exists line,
    add_demonstration task demonstration tps h =
    (Return tt,
     mkHeap (stored (self h) ins)
            (indexed_and_saved (world h) (stored (self h) ins) ins line)).
Proof.
  destruct h as [a [db fs pg]]. simpl. eexists.
  unfold add_demonstration, mbind, Py_bind, lift.
  cbn [bump_last_insight_id get_self set_last_insight_id put_self self world
       last_insight_id mbind Py_bind].
  rewrite format_demo. simpl.
  rewrite for_memo_add. reflexivity.
Qed.

Lemma collect_matches_acc (tps : list string) (acc : list memo_match) h :
  for_acc tps acc (fun matches topic =>
      w ← get_world;
      mret (matches ++ get_related_memos topic 25 100%Q (memo_db w))%list) h
  = (Return (acc ++ all_matches h tps)%list, h).
Proof.
  revert acc. induction tps as [|topic tps IH]; intros acc.
  - simpl. unfold mret, Py_ret. by rewrite app_nil_r.
  - simpl. unfold mbind, Py_bind. simpl. rewrite IH.
    unfold all_matches. simpl. by rewrite app_assoc.
Qed.

Lemma collect_matches_run (tps : list string) h :
  collect_matches tps h = (Return (all_matches h tps), h).
Proof. unfold collect_matches. by rewrite collect_matches_acc. Qed.

Lemma for_acc_cons {A B} (x : A) (xs : list A) (acc : B) (body : B -> A -> Py M Blob B) h :
  for_acc (x :: xs) acc body h =
  match body acc x h with
  | (Return acc', h') => for_acc xs acc' body h'
  | (Raise e, h') => (Raise e, h')
  end.
Proof. reflexivity. Qed.

Lemma add_relevance_run (acc : gmap string float) (m : memo_match) h :
  add_relevance acc m h =
  match uid_insight_dict (self h) !! m.1.2 with
  | Some ins => (Return (poured acc m ins), h)
  | None => (Raise (KeyError m.1.2), h)
  end.
Proof.
  unfold add_relevance, poured, getitem, get_self, raise, mbind, Py_bind, mret, Py_ret.
  destruct (uid_insight_dict (self h) !! m.1.2) as [ins|]; [|done].
  by destruct (acc !! insight_str ins).
Qed.

Lemma poured_lookup (acc : gmap string float) (m : memo_match) (ins : Insight) (t : string) :
  poured acc m ins !! t =
  if bool_decide (insight_str ins = t)
  then merge_score (acc !! t) (relevance_conversion_threshold - m.2)%float
  else acc !! t.
Proof.
  unfold poured. case_bool_decide as Ht.
  - subst t. destruct (acc !! insight_str ins); by rewrite lookup_insert_eq.
  - destruct (acc !! insight_str ins); by rewrite lookup_insert_ne.
Qed.

Lemma add_relevance_loop (ms : list memo_match) (acc : gmap string float) h :
  (forall m, m ∈ ms -> is_Some (uid_insight_dict (self h) !! m.1.2)) ->
  exists d, for_acc ms acc add_relevance h = (Return d, h) /\
    forall t, d !! t = foldl merge_score (acc !! t) (scores_of h t ms).
Proof.
  revert acc. induction ms as [|m ms IH]; intros acc Hres.
  - by exists acc.
  - destruct (Hres m) as [ins Hins]; [left|].
    rewrite for_acc_cons, add_relevance_run, Hins.
    destruct (IH (poured acc m ins)) as (d & Hrun & Hd); [intros; apply Hres; by right|].
    exists d. split; [done|]. intros t.
    rewrite Hd, poured_lookup. unfold scores_of, resolve. simpl. rewrite Hins. simpl.
    case_bool_decide as H1; case_bool_decide as H2; try done; congruence.
Qed.

Lemma add_relevance_loop_fail (ms : list memo_match) (acc : gmap string float) h :
  ~ (forall m, m ∈ ms -> is_Some (uid_insight_dict (self h) !! m.1.2)) ->
  exists m, m ∈ ms /\ uid_insight_dict (self h) !! m.1.2 = None /\
    for_acc ms acc add_relevance h = (Raise (KeyError m.1.2), h).
Proof.
  revert acc. induction ms as [|m ms IH]; intros acc Hres.
  - destruct Hres. intros m Hm. by apply elem_of_nil in Hm.
  - rewrite for_acc_cons, add_relevance_run.
    destruct (uid_insight_dict (self h) !! m.1.2) as [ins|] eqn:Hins.
    + destruct (IH (poured acc m ins)) as (m' & Hm' & Hnone & Hrun).
      { intros Hall. apply Hres. intros m' [->|Hm']%elem_of_cons; [by eexists|by apply Hall]. }
      exists m'. split; [by right|]. by split.
    + exists m. split; [by left|]. by split.
Qed.

Lemma drop_negative_run (acc : gmap string float) (k : string) h :
  drop_negative acc k h =
  match acc !! k with
  | Some r => (Return (if negative r then delete k acc else acc), h)
  | None => (Raise (KeyError k), h)
  end.
Proof.
  unfold drop_negative, getitem, raise, mbind, Py_bind, mret, Py_ret.
  destruct (acc !! k) as [r|]; [|done]. by destruct (negative r).
Qed.

Lemma drop_negative_loop (ks : list string) (acc : gmap string float) h :
  NoDup ks -> (forall k, k ∈ ks -> is_Some (acc !! k)) ->
  exists d, for_acc ks acc drop_negative h = (Return d, h) /\
    forall t, d !! t = if bool_decide (t ∈ ks) then acc !! t ≫= keep_score else acc !! t.
Proof.
  revert acc. induction ks as [|k ks IH]; intros acc Hnd Hin.
  - exists acc. split; [done|]. intros t.
    by rewrite bool_decide_eq_false_2 by apply not_elem_of_nil.
  - apply NoDup_cons in Hnd as [Hk Hnd].
    destruct (Hin k) as [r Hr]; [left|].
    rewrite for_acc_cons, drop_negative_run, Hr.
    set (acc' := if negative r then delete k acc else acc).
    assert (forall t, acc' !! t =
              if bool_decide (t = k) then acc !! t ≫= keep_score else acc !! t) as Hacc'.
    { intros t. unfold acc'. case_bool_decide as Ht.
      - subst t. rewrite Hr. simpl. unfold keep_score.
        destruct (negative r); [by rewrite lookup_delete_eq|done].
      - destruct (negative r); [by rewrite lookup_delete_ne|done]. }
    destruct (IH acc') as (d & Hrun & Hd); [done| |].
    { intros k' Hk'. rewrite Hacc'. rewrite bool_decide_eq_false_2; [apply Hin; by right|].
      by intros ->. }
    exists d. split; [done|]. intros t. rewrite Hd, Hacc'.
    destruct (decide (t = k)) as [->|Hne].
    + rewrite (bool_decide_eq_false_2 (k ∈ ks)) by done.
      rewrite bool_decide_eq_true_2 by done.
      by rewrite (bool_decide_eq_true_2 (k ∈ k :: ks)) by left.
    + rewrite (bool_decide_eq_false_2 (t = k)) by done.
      rewrite (bool_decide_ext (t ∈ k :: ks) (t ∈ ks)); [done|].
      rewrite elem_of_cons. split; [by intros [?|?] | by right].
Qed.

Lemma keys_spec {V} (d : gmap string V) (k : string) : k ∈ keys d <-> is_Some (d !! k).
Proof.
  unfold keys. rewrite list_elem_of_fmap. split.
  - intros ([k' v] & -> & Hkv). apply elem_of_map_to_list in Hkv. by eexists.
  - intros [v Hv]. exists (k, v). split; [done|]. by apply elem_of_map_to_list.
Qed.

Lemma keys_NoDup {V} (d : gmap string V) : NoDup (keys d).
Proof. apply NoDup_fst_map_to_list. Qed.

(** What [get_relevant_insights] does, in one equation per case. *)
Lemma get_relevant_insights_None (task : option string) h :
  exists msg, get_relevant_insights task None h = (Raise (AssertionError msg), h).
Proof.
  unfold get_relevant_insights, assert_, mbind, Py_bind, raise.
  destruct task; simpl; by eexists.
Qed.

Lemma get_relevant_insights_Some (task : option string) (tps : list string) h :
  get_relevant_insights task (Some tps) h =
  match for_acc (all_matches h tps) ∅ add_relevance h with
  | (Return d, h') => for_acc (keys d) d drop_negative h'
  | (Raise e, h') => (Raise e, h')
  end.
Proof.
  unfold get_relevant_insights, assert_, mbind, Py_bind.
  rewrite (bool_decide_eq_true_2 (is_Some (Some tps))) by (by eexists). rewrite orb_true_r.
  cbn [mret Py_ret]. rewrite collect_matches_run.
  destruct (for_acc (all_matches h tps) ∅ add_relevance h) as [[d|e] h']; [|done].
  by destruct (for_acc (keys d) d drop_negative h') as [[d'|e] h''].
Qed.

Lemma get_relevant_insights_ok (task : option string) (tps : list string) h :
  all_resolve h tps ->
  exists d, get_relevant_insights task (Some tps) h = (Return d, h) /\
    forall t, d !! t = foldl merge_score None (scores_of h t (all_matches h tps)) ≫= keep_score.
Proof.
  intros Hres. rewrite get_relevant_insights_Some.
  destruct (add_relevance_loop (all_matches h tps) ∅ h Hres) as (d & -> & Hd).
  destruct (drop_negative_loop (keys d) d h) as (d' & -> & Hd').
  { apply keys_NoDup. } { intros k. apply keys_spec. }
  exists d'. split; [done|]. intros t.
  specialize (Hd t). rewrite lookup_empty in Hd. rewrite Hd', <- Hd.
  case_bool_decide as Hk; [done|].
  rewrite keys_spec in Hk. apply eq_None_not_Some in Hk. by rewrite Hk.
Qed.

Lemma all_resolve_dec (tps : list string) h :
  {all_resolve h tps} + {~ all_resolve h tps}.
Proof.
  destruct (decide (Forall (fun m : memo_match =>
              is_Some (uid_insight_dict (self h) !! m.1.2)) (all_matches h tps)))
    as [Hall|Hall]; [left|right]; unfold all_resolve; by rewrite <- Forall_forall.
Qed.

Lemma get_relevant_insights_fail (task : option string) (tps : list string) h :
  ~ all_resolve h tps ->
  exists m, m ∈ all_matches h tps /\ uid_insight_dict (self h) !! m.1.2 = None /\
    get_relevant_insights task (Some tps) h = (Raise (KeyError m.1.2), h).
Proof.
  intros Hres. rewrite get_relevant_insights_Some.
  destruct (add_relevance_loop_fail (all_matches h tps) ∅ h Hres)
    as (m & Hm & Hnone & ->).
  by exists m.
Qed.

(** ** Retrieval *)

(** C1, as amended: when [get_relevant_insights] returns, the mapping it
    returns gives a text [t] the double that the code accumulates for it:
    [1.7 - distance] of the first match resolving to [t], plus, one after the
    other in the order of the matches, [1.7 - distance] of each further match
    resolving to [t] (from whichever topic, through whichever insight id),
    all in double arithmetic; and it holds exactly the texts that have such
    a match and whose accumulated double is not below 0. *)
Theorem get_relevant_insights_sums (task : option string) (tps : list string)
    h h' (d : gmap string float) :
  get_relevant_insights task (Some tps) h = (Return d, h') ->
  forall t : string,
    d !! t = match spec_relevance h tps t with
             | Some total => if (total <? 0)%float then None else Some total
             | None => None
             end.
Proof.
  intros Hrun t.
  destruct (all_resolve_dec tps h) as [Hres|Hres]; cycle 1.
  { destruct (get_relevant_insights_fail task tps h Hres) as (m & _ & _ & Hfail).
    congruence. }
  destruct (get_relevant_insights_ok task tps h Hres) as (d' & Hok & Hd).
  assert (d' = d) as -> by congruence. rewrite Hd. clear Hrun Hok Hd.
  unfold spec_relevance, scores_of, matches_of.
  destruct (List.filter _ (all_matches h tps)) as [|m ms]; [done|].
  simpl. unfold merge_score at 2.
  rewrite foldl_merge_score_Some, foldl_add_scores. done.
Qed.

(** C9: a call of [get_relevant_insights] leaves the archive as it was,
    whatever it returns or raises: the id-to-insight mapping, the id
    counter, the vector store, and with them the files and the page log. *)
Theorem get_relevant_insights_pure (task : option string)
    (tps : option (list string)) h :
  (get_relevant_insights task tps h).2 = h.
Proof.
  destruct tps as [tps|].
  - destruct (all_resolve_dec tps h) as [Hres|Hres].
    + by destruct (get_relevant_insights_ok task tps h Hres) as (d & -> & _).
    + by destruct (get_relevant_insights_fail task tps h Hres) as (m & _ & _ & ->).
  - by destruct (get_relevant_insights_None task h) as [msg ->].
Qed.

(** C10: with a topics list, if every insight id among the matches the
    vector store returns is a key of the id-to-insight mapping, the lookup
    on line 92 never misses and the call returns a mapping; if some matched
    id is not a key, the call raises [KeyError] for such an id and returns
    no mapping, partial or otherwise. *)
Theorem get_relevant_insights_lookup (task : option string) (tps : list string) h :
  (all_resolve h tps ->
     exists d, get_relevant_insights task (Some tps) h = (Return d, h)) /\
  (~ all_resolve h tps ->
     exists m, m ∈ all_matches h tps /\
       uid_insight_dict (self h) !! m.1.2 = None /\
       get_relevant_insights task (Some tps) h = (Raise (KeyError m.1.2), h)).
Proof.
  split.
  - intros Hres.
    destruct (get_relevant_insights_ok task tps h Hres) as (d & Hd & _). by exists d.
  - apply get_relevant_insights_fail.
Qed.

End Facts.

Section Updates.
Context {M Blob : Type} {MS : MemoStore M} {RT : Runtime Blob}.
Implicit Types (h : Heap M Blob) (a : KnowledgeArchive) (w : World M Blob).

(** ** Construction and persistence *)

Lemma new_run (verbosity : nat) (reset : bool) (memory_dir run_subdir : string) w :
  exists w1 w2 w3,
    files w1 = files w /\ files w2 = files w /\ files w3 = files w /\
    KnowledgeArchive_new verbosity reset memory_dir run_subdir w =
    let path := snapshot_path memory_dir run_subdir in
    match snapshot_read reset memory_dir run_subdir w with
    | Some f =>
        match pickle_load f with
        | Some d => (Return tt, mkHeap (mkArchive path d (size d)) w1)
        | None => (Raise UnpicklingError, mkHeap (mkArchive path ∅ 0) w2)
        end
    | None => (Return tt, mkHeap (mkArchive path ∅ 0) w3)
    end.
Proof.
  destruct w as [db fs pg].
  unfold KnowledgeArchive_new, init, snapshot_read.
  fold (snapshot_path memory_dir run_subdir).
  generalize (snapshot_path memory_dir run_subdir) as path.
  generalize (os_path_join (expanduser memory_dir) [run_subdir; "memo_store"]) as dbdir.
  intros dbdir path. unfold mbind, Py_bind. simpl.
  destruct (if reset then None else fs !! path) as [f|]; simpl.
  - destruct (pickle_load f) as [d|]; simpl.
    + eexists (mkWorld _ fs _), (mkWorld db fs pg), (mkWorld db fs pg). by repeat split.
    + eexists (mkWorld db fs pg), (mkWorld _ fs _), (mkWorld db fs pg). by repeat split.
  - eexists (mkWorld db fs pg), (mkWorld db fs pg), (mkWorld _ fs _). by repeat split.
Qed.

(** C8: if [pickle] loads back what it dumped, then saving an archive and
    constructing a new one over the same directory, without reset, succeeds
    and gives the mapping the archive had when it was saved, and a counter
    equal to its number of entries. *)
Theorem reload_fidelity (verbosity : nat) (memory_dir run_subdir : string) h :
  pickle_faithful ->
  snapshot_path memory_dir run_subdir = path_to_dict (self h) ->
  exists h1 h2,
    save_archive h = (Return tt, h1) /\
    KnowledgeArchive_new verbosity false memory_dir run_subdir (world h1)
      = (Return tt, h2) /\
    uid_insight_dict (self h2) = uid_insight_dict (self h) /\
    last_insight_id (self h2) = size (uid_insight_dict (self h)).
Proof.
  intros Hpickle Hpath.
  destruct (save_archive_run h) as [line Hsave].
  eexists _. 
  destruct (new_run verbosity false memory_dir run_subdir
              (world (save_archive h).2)) as (w1 & w2 & w3 & _ & _ & _ & Hnew).
  rewrite Hsave in Hnew |- *. simpl in Hnew.
  unfold snapshot_read in Hnew. simpl in Hnew.
  rewrite Hpath, lookup_insert_eq, Hpickle in Hnew.
  eexists. split; [done|]. split; [exact Hnew|]. done.
Qed.
(** ** Adding insights *)

(** Every successful call stores one insight under the next id. *)
Lemma run_call_stored (c : call) h h' :
  run_call c h = (Return tt, h') ->
  exists ins,
    id ins = str (last_insight_id (self h) + 1) /\ stored_by c ins /\
    self h' = stored (self h) ins.
Proof.
  destruct c as [istr tstr [tps|]|task demo tps]; unfold run_call.
  - destruct (add_insight_run istr tstr tps h) as [line ->]. intros [= <-].
    by exists (mkInsight (str (last_insight_id (self h) + 1)) istr tstr tps).
  - unfold add_insight, raise. discriminate.
  - destruct (add_demonstration_run task demo tps h) as [line ->]. intros [= <-].
    by exists (mkInsight (str (last_insight_id (self h) + 1))
                         (demo_text task demo) (Some task) tps).
Qed.

Lemma run_calls_cons (c : call) (cs : list call) h :
  run_calls (c :: cs) h =
  match run_call c h with
  | (Return _, h1) => run_calls cs h1
  | (Raise e, h1) => (Raise e, h1)
  end.
Proof. reflexivity. Qed.

Lemma run_calls_from (cs : list call) h h' :
  run_calls cs h = (Return tt, h') ->
  let n := last_insight_id (self h) in
  last_insight_id (self h') = n + length cs /\
  (forall k c, cs !! k = Some c ->
     exists ins, uid_insight_dict (self h') !! str (n + k + 1) = Some ins /\
       id ins = str (n + k + 1) /\ stored_by c ins) /\
  (forall j, j <= n ->
     uid_insight_dict (self h') !! str j = uid_insight_dict (self h) !! str j) /\
  (forall key, is_Some (uid_insight_dict (self h') !! key) ->
     is_Some (uid_insight_dict (self h) !! key) \/
     exists k, k < length cs /\ key = str (n + k + 1)).
Proof.
  revert h. induction cs as [|c cs IH]; intros h Hrun; simpl.
  - injection Hrun as <-. split; [lia|]. split; [done|]. split; [done|]. by left.
  - rewrite run_calls_cons in Hrun.
    destruct (run_call c h) as [[[]|e] h1] eqn:Hc; [|done].
    destruct (run_call_stored c h h1 Hc) as (ins & Hid & Hby & Hself).
    destruct (IH h1 Hrun) as (Hn & Hnew & Hold & Hdom).
    rewrite Hself in Hn, Hnew, Hold, Hdom. simpl in Hn, Hnew, Hold, Hdom.
    split; [lia|]. split; [|split].
    + intros [|k] c' Hk.
      * injection Hk as <-. exists ins. rewrite Nat.add_0_r.
        rewrite Hold by lia. rewrite Hid. by rewrite lookup_insert_eq.
      * destruct (Hnew k c' Hk) as (ins' & Hins' & ?).
        exists ins'. by replace (last_insight_id (self h) + S k + 1)
          with (last_insight_id (self h) + 1 + k + 1) by lia.
    + intros j Hj. rewrite Hold by lia. apply lookup_insert_ne.
      rewrite Hid. intros Heq%str_inj. lia.
    + intros key Hkey. destruct (Hdom key Hkey) as [Hin|(k & Hk & ->)].
      * destruct (decide (id ins = key)) as [<-|Hne].
        -- right. exists 0. split; [lia|]. by rewrite Nat.add_0_r.
        -- left. by rewrite lookup_insert_ne in Hin.
      * right. exists (S k). split; [lia|]. f_equal. lia.
Qed.

(** C5: after any sequence of N successful [add_insight] and
    [add_demonstration] calls on an empty archive (no entry, counter 0) the
    counter is N, the insight stored by the k-th call sits under the key
    [str k] and carries that id, for k = 1, ..., N in call order, and the
    mapping has no other key. *)
Theorem ids_from_empty (cs : list call) h h' :
  uid_insight_dict (self h) = ∅ -> last_insight_id (self h) = 0 ->
  run_calls cs h = (Return tt, h') ->
  last_insight_id (self h') = length cs /\
  (forall k c, cs !! k = Some c ->
     exists ins, uid_insight_dict (self h') !! str (k + 1) = Some ins /\
       id ins = str (k + 1) /\ stored_by c ins) /\
  (forall key, is_Some (uid_insight_dict (self h') !! key) ->
     exists k, k < length cs /\ key = str (k + 1)).
Proof.
  intros Hempty Hzero Hrun.
  destruct (run_calls_from cs h h' Hrun) as (Hn & Hnew & _ & Hdom).
  rewrite Hzero in Hn, Hnew, Hdom. simpl in *.
  split; [done|]. split; [done|].
  intros key Hkey. destruct (Hdom key Hkey) as [Hin|?]; [|done].
  rewrite Hempty, lookup_empty in Hin. by destruct Hin.
Qed.

(** C6, as amended: the id counter equals the number of entries right after
    construction, whether a snapshot was loaded or not; a successful
    [add_insight] or [add_demonstration] call keeps the equality exactly
    when the id it allocates, [str (last_insight_id + 1)], is not yet a key
    of the mapping; and it does keep it, along with the numbering, when every
    key is the decimal string of a number up to the counter. *)
Theorem counter_and_size :
  (forall (verbosity : nat) (reset : bool) (memory_dir run_subdir : string) w h,
     KnowledgeArchive_new verbosity reset memory_dir run_subdir w = (Return tt, h) ->
     counter_is_size h) /\
  (forall (c : call) h h',
     run_call c h = (Return tt, h') -> counter_is_size h ->
     (counter_is_size h' <->
      uid_insight_dict (self h) !! str (last_insight_id (self h) + 1) = None)) /\
  (forall (c : call) h h',
     run_call c h = (Return tt, h') -> counter_is_size h -> well_numbered h ->
     counter_is_size h' /\ well_numbered h').
Proof.
  assert (forall (c : call) h h',
     run_call c h = (Return tt, h') -> counter_is_size h ->
     (counter_is_size h' <->
      uid_insight_dict (self h) !! str (last_insight_id (self h) + 1) = None)) as Hiff.
  { intros c h h' Hc Hsz.
    destruct (run_call_stored c h h' Hc) as (ins & Hid & _ & Hself).
    unfold counter_is_size in *. rewrite Hself. simpl.
    rewrite map_size_insert, Hid, Hsz.
    destruct (uid_insight_dict (self h) !! _); unfold Datatypes.id; split; intros; (done || lia). }
  split; [|split; [exact Hiff|]].
  - intros verbosity reset memory_dir run_subdir w h.
    destruct (new_run verbosity reset memory_dir run_subdir w)
      as (w1 & w2 & w3 & _ & _ & _ & ->). simpl.
    destruct (snapshot_read reset memory_dir run_subdir w) as [f|].
    + destruct (pickle_load f) as [d|]; [|done]. by intros [= <-].
    + by intros [= <-].
  - intros c h h' Hc Hsz Hwn.
    assert (uid_insight_dict (self h) !! str (last_insight_id (self h) + 1) = None) as Hfresh.
    { apply eq_None_not_Some. intros (k & Hk & Heq%str_inj)%Hwn. lia. }
    split; [by apply (Hiff c h h' Hc Hsz)|].
    destruct (run_call_stored c h h' Hc) as (ins & Hid & _ & Hself).
    intros key. rewrite Hself. simpl. rewrite lookup_insert.
    case_decide as Hkey.
    + intros _. exists (last_insight_id (self h) + 1). split; [lia|congruence].
    + intros (k & Hk & ->)%Hwn. exists k. split; [lia|done].
Qed.


(** C2, as amended: [add_insight] without a topics list ([None]) fails its
    assertion and leaves the archive, its id counter included, as it was;
    with an empty topics list it succeeds and the counter grows by one. *)
Theorem add_insight_topics (istr : string) (tstr : option string) h :
  add_insight istr tstr None h =
    (Raise (AssertionError "For now, the topics list must be provided."), h) /\
  (exists h', add_insight istr tstr (Some []) h = (Return tt, h') /\
     last_insight_id (self h') = last_insight_id (self h) + 1).
Proof.
  split; [reflexivity|].
  destruct (add_insight_run istr tstr [] h) as [line ->]. by eexists.
Qed.

(** C4, as amended: [add_demonstration] makes no check of its topics; with
    an empty topics list it succeeds, stores the demonstration as an insight
    under the next id, advances the counter, and adds no association to the
    vector store (which it only saves). *)
Theorem add_demonstration_no_topics (task demonstration : string) h :
  exists h',
    add_demonstration task demonstration [] h = (Return tt, h') /\
    uid_insight_dict (self h') !! str (last_insight_id (self h) + 1) =
      Some (mkInsight (str (last_insight_id (self h) + 1))
                      (demo_text task demonstration) (Some task) []) /\
    last_insight_id (self h') = last_insight_id (self h) + 1 /\
    memo_db (world h') = save_memos (memo_db (world h)).
Proof.
  destruct (add_demonstration_run task demonstration [] h) as [line ->].
  eexists. split; [done|]. simpl. by rewrite lookup_insert_eq.
Qed.

(** C7: [add_demonstration] on a task T, a demonstration D and any topics
    list succeeds and stores, under the id it allocates, an insight whose
    text is "Example task:\n\n" + T + "\nExample solution:\n\n" + D and
    whose [task_str] is T. *)
Theorem add_demonstration_text (task demonstration : string) (tps : list string) h :
  exists h' ins,
    add_demonstration task demonstration tps h = (Return tt, h') /\
    uid_insight_dict (self h') !! str (last_insight_id (self h) + 1) = Some ins /\
    insight_str ins =
      "Example task:" +:+ nl +:+ nl +:+ task +:+ nl +:+
      "Example solution:" +:+ nl +:+ nl +:+ demonstration /\
    task_str ins = Some task.
Proof.
  destruct (add_demonstration_run task demonstration tps h) as [line ->].
  eexists _, _. split; [done|]. simpl. by rewrite lookup_insert_eq.
Qed.

(** C3, as amended: [get_relevant_insights] without a topics list ([None])
    fails an assertion, whether a task string is given or not, and returns
    no mapping; with an empty topics list it returns the empty mapping. *)
Theorem get_relevant_insights_topics (task : option string) h :
  (exists msg,
     get_relevant_insights task None h = (Raise (AssertionError msg), h)) /\
  get_relevant_insights task (Some []) h = (Return ∅, h).
Proof.
  split; [apply get_relevant_insights_None|].
  by rewrite get_relevant_insights_Some.
Qed.

End Updates.

(** * The theorems at work on the example archives *)

(** The spec's aggregation example: distances 1.0 and 1.2 from two topics
    sum to a relevance of 1.2, and the insight at distance 2.0 is left out. *)
Example relevance_of_two_topics :
  exists d,
    get_relevant_insights None (Some ["weather"; "rain"]) scored_heap
      = (Return d, scored_heap) /\
    map_to_list d = [("carry an umbrella", 1.2%float)].
Proof. eexists. split; vm_compute; reflexivity. Qed.

Example nl_is_line_feed : nl = String "010"%char EmptyString.
Proof. reflexivity. Qed.

Lemma get_relevant_insights_sums_witness :
  scored_result !! "carry an umbrella"
  = match spec_relevance scored_heap ["weather"; "rain"; "storm"]
            "carry an umbrella" with
    | Some total => if (total <? 0)%float then None else Some total
    | None => None
    end.
Proof.
  apply (get_relevant_insights_sums None ["weather"; "rain"; "storm"]
           scored_heap scored_heap scored_result).
  vm_compute. reflexivity.
Defined.

(** Five matches at distances 1.5, 1.5, 1.5, 2.0 and 2.0 resolve to one
    text: the sum of [1.7 - distance] over them is 0, which is not negative,
    yet the doubles add up to a number below 0 and the returned mapping does
    not hold the text. *)
Lemma exact_sum_not_negative_but_dropped :
  (get_relevant_insights None
     (Some ["weather"; "rain"; "storm"; "fog"; "wind"]) rounding_heap).1
    = Return ∅ /\
  length (matches_of rounding_heap ["weather"; "rain"; "storm"; "fog"; "wind"]
            "carry an umbrella") = 5 /\
  (exact_relevance rounding_heap ["weather"; "rain"; "storm"; "fog"; "wind"]
     "carry an umbrella" == 0)%Q /\
  spec_relevance rounding_heap ["weather"; "rain"; "storm"; "fog"; "wind"]
    "carry an umbrella" = Some (-2.2204460492503131e-16)%float.
Proof. repeat split; vm_compute; reflexivity. Qed.

Lemma get_relevant_insights_lookup_witness :
  (exists d, get_relevant_insights None (Some ["weather"; "rain"]) scored_heap
             = (Return d, scored_heap)) /\
  (exists m, m ∈ all_matches scored_heap ["fog"] /\
     uid_insight_dict (self scored_heap) !! m.1.2 = None /\
     get_relevant_insights None (Some ["fog"]) scored_heap
       = (Raise (KeyError m.1.2), scored_heap)).
Proof.
  split.
  - apply (proj1 (get_relevant_insights_lookup None ["weather"; "rain"] scored_heap)).
    unfold all_resolve. apply Forall_forall. vm_compute.
    repeat constructor; eexists; reflexivity.
  - apply (proj2 (get_relevant_insights_lookup None ["fog"] scored_heap)).
    intros Hall. destruct (Hall ("fog", "9", 0.25%float)) as [ins Hins]; [by left|].
    vm_compute in Hins. discriminate.
Defined.

Lemma ids_from_empty_witness :
  last_insight_id (self after_three_calls) = length three_calls /\
  (forall k c, three_calls !! k = Some c ->
     exists ins, uid_insight_dict (self after_three_calls) !! str (k + 1) = Some ins /\
       id ins = str (k + 1) /\ stored_by c ins) /\
  (forall key, is_Some (uid_insight_dict (self after_three_calls) !! key) ->
     exists k, k < length three_calls /\ key = str (k + 1)).
Proof.
  apply (ids_from_empty three_calls empty_heap after_three_calls);
    vm_compute; reflexivity.
Defined.

Lemma reload_fidelity_witness :
  exists h1 h2,
    save_archive scored_heap = (Return tt, h1) /\
    KnowledgeArchive_new 0 false "tmp/memory" "run1" (world h1) = (Return tt, h2) /\
    uid_insight_dict (self h2) = uid_insight_dict (self scored_heap) /\
    last_insight_id (self h2) = size (uid_insight_dict (self scored_heap)).
Proof.
  apply (reload_fidelity 0 "tmp/memory" "run1" scored_heap items_pickle_faithful).
  vm_compute. reflexivity.
Defined.

(** [add_insight] with an empty topics list on a new archive: no assertion
    fails, and the counter goes from 0 to 1. *)
Lemma add_insight_empty_topics_returns :
  (add_insight "carry an umbrella" None (Some []) empty_heap).1 = Return tt /\
  ~ (exists msg, (add_insight "carry an umbrella" None (Some []) empty_heap).1
                 = Raise (AssertionError msg)) /\
  last_insight_id (self empty_heap) = 0 /\
  last_insight_id
    (self (add_insight "carry an umbrella" None (Some []) empty_heap).2) = 1.
Proof.
  split; [by vm_compute|]. split; [|by vm_compute].
  intros [msg Hmsg]. vm_compute in Hmsg. discriminate.
Qed.

(** [get_relevant_insights] with an empty topics list, with or without a
    task string: the empty mapping is returned, nothing is raised. *)
Lemma get_relevant_insights_empty_topics_returns :
  (get_relevant_insights None (Some []) scored_heap).1 = Return ∅ /\
  (get_relevant_insights (Some "plan a trip") (Some []) scored_heap).1 = Return ∅.
Proof. split; by vm_compute. Qed.

(** [add_demonstration] with an empty topics list on a new archive: it
    returns, and the insight is in the archive under the id "1". *)
Lemma add_demonstration_empty_topics_returns :
  (add_demonstration "T" "D" [] empty_heap).1 = Return tt /\
  uid_insight_dict (self (add_demonstration "T" "D" [] empty_heap).2) !! "1"
    = Some (mkInsight "1" (demo_text "T" "D") (Some "T") []).
Proof. split; by vm_compute. Qed.

(** An archive constructed over a snapshot whose only key is "2" has counter
    1 and one entry; a successful [add_insight] then allocates the id "2"
    again: the counter is 2 and the mapping still has one entry. *)
Lemma counter_leaves_size :
  (KnowledgeArchive_new 0 false "tmp/memory" "run1" misnumbered_world).1 = Return tt /\
  counter_is_size misnumbered_heap /\
  (add_insight "carry an umbrella" None (Some ["rain"]) misnumbered_heap).1
    = Return tt /\
  ~ counter_is_size
      (add_insight "carry an umbrella" None (Some ["rain"]) misnumbered_heap).2.
Proof.
  split; [by vm_compute|]. split; [by vm_compute|]. split; [by vm_compute|].
  unfold counter_is_size. vm_compute. discriminate.
Qed.

(** * More about the archive *)

Section MoreUpdates.
Context {M Blob : Type} {MS : MemoStore M} {RT : Runtime Blob}.
Implicit Types (h : Heap M Blob) (a : KnowledgeArchive) (w : World M Blob).

Lemma new_files (verbosity : nat) (reset : bool) (memory_dir run_subdir : string) w :
  files (world (KnowledgeArchive_new verbosity reset memory_dir run_subdir w).2)
  = files w.
Proof.
  destruct (new_run verbosity reset memory_dir run_subdir w)
    as (w1 & w2 & w3 & H1 & H2 & H3 & ->). simpl.
  destruct (snapshot_read reset memory_dir run_subdir w) as [f|]; [|done].
  by destruct (pickle_load f).
Qed.

(** X2: with [reset] set, or with no snapshot file at its path, the
    constructor returns an archive with no entry and counter 0, whose
    [path_to_dict] is joined from the memory directory, the run's
    subdirectory and [uid_insight_dict.pkl]; with [reset] an existing
    snapshot is not read. *)
Theorem constructor_starts_empty (verbosity : nat) (reset : bool)
    (memory_dir run_subdir : string) w :
  reset = true \/ files w !! snapshot_path memory_dir run_subdir = None ->
  exists h,
    KnowledgeArchive_new verbosity reset memory_dir run_subdir w = (Return tt, h) /\
    uid_insight_dict (self h) = ∅ /\ last_insight_id (self h) = 0 /\
    path_to_dict (self h) = snapshot_path memory_dir run_subdir.
Proof.
  intros Hfresh.
  destruct (new_run verbosity reset memory_dir run_subdir w)
    as (w1 & w2 & w3 & _ & _ & _ & ->). simpl.
  assert (snapshot_read reset memory_dir run_subdir w = None) as ->.
  { unfold snapshot_read. destruct Hfresh as [->|Hnone]; [done|].
    by destruct reset. }
  by eexists.
Qed.

(** X5: [add_demonstration(task, demonstration, topics)] does exactly what
    [add_insight] does on the text built from the task and the
    demonstration, with the task as [task_str] and the same topics: same
    outcome, same archive, same vector store, files and log. *)
Theorem add_demonstration_as_add_insight (task demonstration : string)
    (tps : list string) h :
  add_demonstration task demonstration tps h =
  add_insight (demo_text task demonstration) (Some task) (Some tps) h.
Proof.
  destruct h as [a [db fs pg]].
  unfold add_demonstration, add_insight, mbind, Py_bind, lift.
  cbn [bump_last_insight_id get_self set_last_insight_id put_self self world
       last_insight_id mbind Py_bind].
  by rewrite format_demo.
Qed.

(** X12: with a topics list, what [get_relevant_insights] returns or raises
    does not depend on [task_str]. *)
Theorem task_str_unused (task1 task2 : option string) (tps : list string) h :
  get_relevant_insights task1 (Some tps) h = get_relevant_insights task2 (Some tps) h.
Proof. by rewrite !get_relevant_insights_Some. Qed.

(** What a successful call leaves, in full. *)
Lemma run_call_run (c : call) h h' :
  run_call c h = (Return tt, h') ->
  exists ins line,
    id ins = str (last_insight_id (self h) + 1) /\ stored_by c ins /\
    h' = mkHeap (stored (self h) ins)
                (indexed_and_saved (world h) (stored (self h) ins) ins line).
Proof.
  destruct c as [istr tstr [tps|]|task demo tps]; unfold run_call.
  - destruct (add_insight_run istr tstr tps h) as [line ->]. intros [= <-].
    by exists (mkInsight (str (last_insight_id (self h) + 1)) istr tstr tps), line.
  - unfold add_insight, raise. discriminate.
  - destruct (add_demonstration_run task demo tps h) as [line ->]. intros [= <-].
    by exists (mkInsight (str (last_insight_id (self h) + 1))
                         (demo_text task demo) (Some task) tps), line.
Qed.

(** X4: every successful [add_insight] or [add_demonstration] has saved the
    archive before it returns: if [pickle] loads back what it dumped, an
    archive constructed right after it over the same directory, without
    reset, has the mapping the call left, the new insight included. *)
Theorem add_then_reload (verbosity : nat) (memory_dir run_subdir : string)
    (c : call) h h' :
  pickle_faithful ->
  snapshot_path memory_dir run_subdir = path_to_dict (self h) ->
  run_call c h = (Return tt, h') ->
  exists h2,
    KnowledgeArchive_new verbosity false memory_dir run_subdir (world h')
      = (Return tt, h2) /\
    uid_insight_dict (self h2) = uid_insight_dict (self h') /\
    last_insight_id (self h2) = size (uid_insight_dict (self h')).
Proof.
  intros Hpickle Hpath Hc.
  destruct (run_call_run c h h' Hc) as (ins & line & _ & _ & ->).
  destruct (new_run verbosity false memory_dir run_subdir
              (indexed_and_saved (world h) (stored (self h) ins) ins line))
    as (w1 & w2 & w3 & _ & _ & _ & Hnew).
  cbn [world]. rewrite Hnew.
  unfold snapshot_read. simpl. rewrite Hpath, lookup_insert_eq, Hpickle.
  by eexists.
Qed.

(** X6: [add_insight] with a topics list returns, having added to the vector
    store one association per topic, in the order of the list (repeated
    topics again), each from the topic to the new id, and then saved the
    store; the snapshot file holds the new mapping and [path_to_dict] is
    unchanged. *)
Theorem add_indexes_topics (istr : string) (tstr : option string)
    (tps : list string) h :
  exists h',
    add_insight istr tstr (Some tps) h = (Return tt, h') /\
    memo_db (world h') =
      save_memos
        (foldl (fun db topic =>
                  add_input_output_pair topic (str (last_insight_id (self h) + 1)) db)
               (memo_db (world h)) tps) /\
    files (world h') !! path_to_dict (self h) =
      Some (pickle_dump (uid_insight_dict (self h'))) /\
    path_to_dict (self h') = path_to_dict (self h).
Proof.
  destruct (add_insight_run istr tstr tps h) as [line ->]. eexists.
  split; [done|]. simpl. split; [done|]. split; [|done].
  by rewrite lookup_insert_eq.
Qed.

(** X7: in an archive whose keys are decimal strings of numbers up to the
    counter, a successful [add_insight] or [add_demonstration] overwrites
    nothing: every insight of the mapping is still there, under its key,
    afterwards. *)
Theorem add_keeps_entries (c : call) h h' :
  well_numbered h ->
  run_call c h = (Return tt, h') ->
  forall key ins, uid_insight_dict (self h) !! key = Some ins ->
    uid_insight_dict (self h') !! key = Some ins.
Proof.
  intros Hwn Hc key ins Hkey.
  destruct (run_call_stored c h h' Hc) as (ins' & Hid & _ & ->). simpl.
  rewrite lookup_insert_ne; [done|].
  rewrite Hid. intros <-.
  destruct (Hwn (str (last_insight_id (self h) + 1))) as (k & Hk & Heq%str_inj);
    [by eexists|lia].
Qed.

(** X8: if every insight of the mapping sits under its own [id], it is
    still so after a successful [add_insight] or [add_demonstration]: the new
    insight is stored under the id it carries. *)
Theorem add_keeps_key_is_id (c : call) h h' :
  key_is_id h -> run_call c h = (Return tt, h') -> key_is_id h'.
Proof.
  intros Hki Hc key ins.
  destruct (run_call_stored c h h' Hc) as (ins' & Hid & _ & ->). simpl.
  rewrite lookup_insert. case_decide as Hkey.
  - by intros [= <-].
  - apply Hki.
Qed.

(** X9: from any archive, with counter n, a sequence of N successful calls
    leaves the counter at n + N, stores the insight of the k-th call under
    [str (n + k)] with that id, and leaves the entries under [str j], j <= n,
    as they were. *)
Theorem ids_continue (cs : list call) h h' :
  run_calls cs h = (Return tt, h') ->
  last_insight_id (self h') = last_insight_id (self h) + length cs /\
  (forall k c, cs !! k = Some c ->
     exists ins,
       uid_insight_dict (self h') !! str (last_insight_id (self h) + k + 1) = Some ins /\
       id ins = str (last_insight_id (self h) + k + 1) /\ stored_by c ins) /\
  (forall j, j <= last_insight_id (self h) ->
     uid_insight_dict (self h') !! str j = uid_insight_dict (self h) !! str j).
Proof.
  intros Hrun.
  destruct (run_calls_from cs h h' Hrun) as (Hn & Hnew & Hold & _). done.
Qed.

(** The numbering is kept by every successful call. *)
Lemma run_call_numbered (c : call) h h' :
  run_call c h = (Return tt, h') ->
  counter_is_size h -> well_numbered h ->
  counter_is_size h' /\ well_numbered h'.
Proof.
  intros Hc Hsz Hwn.
  destruct (run_call_stored c h h' Hc) as (ins & Hid & _ & Hself).
  assert (uid_insight_dict (self h) !! str (last_insight_id (self h) + 1) = None)
    as Hfresh.
  { apply eq_None_not_Some. intros (k & Hk & Heq%str_inj)%Hwn. lia. }
  split.
  - unfold counter_is_size in *. rewrite Hself. simpl.
    rewrite map_size_insert, Hid, Hfresh. lia.
  - intros key. rewrite Hself. simpl. rewrite lookup_insert.
    case_decide as Hkey.
    + intros _. exists (last_insight_id (self h) + 1). split; [lia|congruence].
    + intros (k & Hk & ->)%Hwn. exists k. split; [lia|done].
Qed.

Lemma run_calls_numbered (cs : list call) h h' :
  run_calls cs h = (Return tt, h') ->
  counter_is_size h -> well_numbered h ->
  counter_is_size h' /\ well_numbered h'.
Proof.
  revert h. induction cs as [|c cs IH]; intros h Hrun Hsz Hwn.
  - by injection Hrun as <-.
  - rewrite run_calls_cons in Hrun.
    destruct (run_call c h) as [[[]|e] h1] eqn:Hc; [|done].
    destruct (run_call_numbered c h h1 Hc Hsz Hwn) as [Hsz1 Hwn1].
    by apply (IH h1).
Qed.

(** X10: if [pickle] loads back what it dumped, then for an archive whose
    counter is its number of entries and whose keys are decimal strings of
    numbers up to the counter, saving it and constructing a new archive over
    the same directory, without reset, gives the same archive object (path,
    mapping and counter), so the next id is the one the saved archive would
    have allocated. *)
Theorem numbering_survives_reload (verbosity : nat)
    (memory_dir run_subdir : string) h :
  pickle_faithful ->
  snapshot_path memory_dir run_subdir = path_to_dict (self h) ->
  counter_is_size h -> well_numbered h ->
  exists h1 h2,
    save_archive h = (Return tt, h1) /\
    KnowledgeArchive_new verbosity false memory_dir run_subdir (world h1)
      = (Return tt, h2) /\
    self h2 = self h /\ counter_is_size h2 /\ well_numbered h2.
Proof.
  intros Hpickle Hpath Hsz Hwn.
  destruct (save_archive_run h) as [line ->].
  destruct (new_run verbosity false memory_dir run_subdir
     (mkWorld (save_memos (memo_db (world h)))
        (<[path_to_dict (self h) := pickle_dump (uid_insight_dict (self h))]>
           (files (world h)))
        (page (world h) ++ [line])%list))
    as (w1 & w2 & w3 & _ & _ & _ & Hnew).
  unfold snapshot_read in Hnew. simpl in Hnew.
  rewrite Hpath, lookup_insert_eq, Hpickle in Hnew.
  assert (mkArchive (path_to_dict (self h)) (uid_insight_dict (self h))
            (size (uid_insight_dict (self h))) = self h) as Hself.
  { rewrite <- Hsz. by destruct (self h). }
  rewrite Hself in Hnew.
  do 2 eexists. split; [reflexivity|]. split; [exact Hnew|]. done.
Qed.

(** ** Sessions over one directory *)

Lemma run_calls_app (cs1 cs2 : list call) h :
  run_calls (cs1 ++ cs2) h =
  match run_calls cs1 h with
  | (Return _, h1) => run_calls cs2 h1
  | (Raise e, h1) => (Raise e, h1)
  end.
Proof.
  revert h. induction cs1 as [|c cs1 IH]; intros h; [done|].
  rewrite <- app_comm_cons, !run_calls_cons.
  destruct (run_call c h) as [[[]|e] h1]; [apply IH|done].
Qed.

(** What a call makes of the archive object depends on that object only. *)
Lemma run_call_self (c : call) h1 h2 h1' :
  self h1 = self h2 -> run_call c h1 = (Return tt, h1') ->
  exists h2', run_call c h2 = (Return tt, h2') /\ self h1' = self h2'.
Proof.
  intros Hself. destruct c as [istr tstr [tps|]|task demo tps]; unfold run_call.
  - destruct (add_insight_run istr tstr tps h1) as [l1 ->].
    destruct (add_insight_run istr tstr tps h2) as [l2 ->].
    intros [= <-]. eexists. split; [done|]. simpl. by rewrite Hself.
  - unfold add_insight, raise. discriminate.
  - destruct (add_demonstration_run task demo tps h1) as [l1 ->].
    destruct (add_demonstration_run task demo tps h2) as [l2 ->].
    intros [= <-]. eexists. split; [done|]. simpl. by rewrite Hself.
Qed.

Lemma run_calls_self (cs : list call) h1 h2 h1' :
  self h1 = self h2 -> run_calls cs h1 = (Return tt, h1') ->
  exists h2', run_calls cs h2 = (Return tt, h2') /\ self h1' = self h2'.
Proof.
  revert h1 h2. induction cs as [|c cs IH]; intros h1 h2 Hself Hrun.
  - injection Hrun as <-. by exists h2.
  - rewrite run_calls_cons in Hrun |- *.
    destruct (run_call c h1) as [[[]|e] h1m] eqn:Hc; [|done].
    destruct (run_call_self c h1 h2 h1m Hself Hc) as (h2m & -> & Hm).
    by apply (IH h1m).
Qed.

(** Whether the constructor returns, and the object it makes, depend on the
    files only. *)
Lemma new_by_files (v1 v2 : nat) (reset : bool) (memory_dir run_subdir : string)
    w1 w2 ha :
  files w1 = files w2 ->
  KnowledgeArchive_new v1 reset memory_dir run_subdir w1 = (Return tt, ha) ->
  exists hb, KnowledgeArchive_new v2 reset memory_dir run_subdir w2 = (Return tt, hb)
    /\ self hb = self ha.
Proof.
  intros Hfiles.
  destruct (new_run v1 reset memory_dir run_subdir w1)
    as (wa & wb & wc & _ & _ & _ & ->).
  destruct (new_run v2 reset memory_dir run_subdir w2)
    as (wa' & wb' & wc' & _ & _ & _ & ->).
  unfold snapshot_read. rewrite Hfiles. simpl.
  destruct (if reset then None else _) as [f|].
  - destruct (pickle_load f) as [d|]; [|done]. intros [= <-]. by eexists.
  - intros [= <-]. by eexists.
Qed.

Lemma run_call_reopens (memory_dir run_subdir : string) (c : call) h h' :
  pickle_faithful -> reopens memory_dir run_subdir h ->
  run_call c h = (Return tt, h') -> reopens memory_dir run_subdir h'.
Proof.
  intros Hpickle (Hpath & Hsz & Hwn & _) Hc.
  destruct (run_call_numbered c h h' Hc Hsz Hwn) as [Hsz' Hwn'].
  destruct (run_call_run c h h' Hc) as (ins & line & _ & _ & Hh').
  assert (path_to_dict (self h') = snapshot_path memory_dir run_subdir) as Hpath'.
  { by rewrite Hh'. }
  split; [done|]. split; [done|]. split; [done|].
  destruct (new_run 0 false memory_dir run_subdir (world h'))
    as (w1 & w2 & w3 & _ & _ & _ & Hnew).
  unfold snapshot_read in Hnew. rewrite Hh' in Hnew at 2. simpl in Hnew.
  rewrite <- Hpath, lookup_insert_eq, Hpickle in Hnew.
  eexists. split; [exact Hnew|]. simpl.
  rewrite Hh' in Hsz' |- *. unfold counter_is_size in Hsz'. simpl in *.
  unfold stored. by rewrite <- Hsz', Hpath.
Qed.

Lemma run_calls_reopens (memory_dir run_subdir : string) (cs : list call) h h' :
  pickle_faithful -> reopens memory_dir run_subdir h ->
  run_calls cs h = (Return tt, h') -> reopens memory_dir run_subdir h'.
Proof.
  intros Hpickle. revert h. induction cs as [|c cs IH]; intros h Hre Hrun.
  - by injection Hrun as <-.
  - rewrite run_calls_cons in Hrun.
    destruct (run_call c h) as [[[]|e] h1] eqn:Hc; [|done].
    apply (IH h1); [|done]. by apply (run_call_reopens _ _ c h).
Qed.

Lemma run_sessions_from (memory_dir run_subdir : string) (ss : list (list call))
    w w' h0 :
  pickle_faithful ->
  KnowledgeArchive_new 0 false memory_dir run_subdir w = (Return tt, h0) ->
  reopens memory_dir run_subdir h0 ->
  run_sessions memory_dir run_subdir ss w = (Return tt, w') ->
  exists h h1,
    KnowledgeArchive_new 0 false memory_dir run_subdir w' = (Return tt, h) /\
    run_calls (concat ss) h0 = (Return tt, h1) /\
    self h = self h1.
Proof.
  intros Hpickle. revert w h0. induction ss as [|cs ss IH]; intros w h0 Hnew Hre Hrun.
  - injection Hrun as <-. by exists h0, h0.
  - simpl in Hrun. unfold run_session in Hrun. rewrite Hnew in Hrun.
    destruct (run_calls cs h0) as [[[]|e] hc] eqn:Hcs; [|done].
    pose proof (run_calls_reopens _ _ cs h0 hc Hpickle Hre Hcs) as Hrec.
    destruct Hrec as (Hpath & Hsz & Hwn & h0' & Hnew' & Hself').
    destruct (IH (world hc) h0' Hnew') as (h & h1' & Hh & Hrest & Hself); [|done|].
    { split; [by rewrite Hself'|]. split; [by unfold counter_is_size; rewrite Hself'|].
      split; [by unfold well_numbered; rewrite Hself'|].
      destruct (new_by_files 0 0 false memory_dir run_subdir (world hc) (world h0') h0')
        as (hb & Hhb & Hselfb); [|done|by exists hb].
      symmetry. pose proof (new_files 0 false memory_dir run_subdir (world hc)) as Hf.
      by rewrite Hnew' in Hf. }
    destruct (run_calls_self (concat ss) h0' hc h1' Hself' Hrest) as (h1 & Hh1 & Hs1).
    exists h, h1. split; [done|]. split; [|congruence].
    simpl. by rewrite run_calls_app, Hcs.
Qed.

(** X11: restarts do not show.  Over a directory without a snapshot, if
    [pickle] loads back what it dumped, a series of sessions, each
    constructing the archive without reset and making its successful calls,
    leaves a directory over which the archive is the one a single session
    making all the calls would have: same mapping, same counter, the number
    of calls made. *)
Theorem sessions_as_one (memory_dir run_subdir : string) (ss : list (list call))
    w w' :
  pickle_faithful ->
  files w !! snapshot_path memory_dir run_subdir = None ->
  run_sessions memory_dir run_subdir ss w = (Return tt, w') ->
  exists h h1,
    KnowledgeArchive_new 0 false memory_dir run_subdir w' = (Return tt, h) /\
    run_session memory_dir run_subdir (concat ss) w = (Return tt, h1) /\
    self h = self h1 /\
    last_insight_id (self h) = length (concat ss).
Proof.
  intros Hpickle Hfresh Hrun.
  destruct (new_run 0 false memory_dir run_subdir w)
    as (w1 & w2 & w3 & _ & _ & Hf3 & Hnew).
  unfold snapshot_read in Hnew. rewrite Hfresh in Hnew. simpl in Hnew.
  destruct (run_sessions_from memory_dir run_subdir ss w w' _ Hpickle Hnew)
    as (h & h1 & Hh & Hcalls & Hself); [|done|].
  { split; [done|]. split; [done|]. split.
    - intros key [ins Hins]. simpl in Hins. by rewrite lookup_empty in Hins.
    - destruct (new_by_files 0 0 false memory_dir run_subdir w w3 _ (eq_sym Hf3) Hnew)
        as (hb & Hhb & Hselfb). by exists hb. }
  exists h, h1. split; [done|]. unfold run_session. rewrite Hnew.
  split; [done|]. split; [done|].
  rewrite Hself. by destruct (run_calls_from (concat ss) _ h1 Hcalls) as (-> & _).
Qed.

End MoreUpdates.

(** * Facts about [eval_self_teaching] *)

Section EvalFacts.
Context {S : Type} {LB : Lab S}.
Implicit Types (s : S).

Lemma Run_bind_Ok {A B} (m : Run S A) (k : A -> Run S B) s (b : B) s' :
  (m ≫= k) s = (Ok b, s') ->
  exists a s1, m s = (Ok a, s1) /\ k a s1 = (Ok b, s').
Proof.
  unfold mbind, Run_bind. destruct (m s) as [[a|e] s1]; [|done].
  intros Hk. by exists a, s1.
Qed.

Lemma subscript_Ok (d : gmap string pyval) (k : string) s v s' :
  subscript d k s = (Ok v, s') -> d !! k = Some v /\ s' = s.
Proof.
  unfold subscript. destruct (d !! k); [|done]. by intros [= <- <-].
Qed.

Lemma success_rate_Ok (a b : Z) s x s' :
  success_rate a b s = (Ok x, s') -> b <> 0%Z /\ round_percent a b = Ok x /\ s' = s.
Proof.
  unfold success_rate. destruct (Z.eqb_spec b 0); [done|].
  by intros [= -> <-].
Qed.

Lemma add_to_Ok (total : Z) (n : pyval) s x s' :
  add_to total n s = (Ok x, s') -> exists t, n = PyInt t /\ x = (total + t)%Z.
Proof. destruct n as [t|]; [|done]. intros [= <- _]. by exists t. Qed.

Lemma range_len_Ok (n : pyval) s k s' :
  range_len n s = (Ok k, s') -> exists z, n = PyInt z /\ k = Z.to_nat z /\ s' = s.
Proof. destruct n as [z|]; [|done]. intros [= <- <-]. by exists z. Qed.

(** Taking a run of binds apart, keeping what each step returned. *)
Ltac run_inv H :=
  repeat (let Hstep := fresh "Hstep" in
          apply Run_bind_Ok in H as (? & ? & Hstep & H);
          repeat match type of H with
                 | (let '(_, _) := ?p in _) _ = _ => destruct p
                 end).

Lemma one_loop_trials (td1 ea1 td2 ea2 nftt : pyval) (totals totals' : Z * Z * Z) s s' :
  one_loop td1 ea1 td2 ea2 nftt totals s = (Ok totals', s') ->
  exists t, nftt = PyInt t /\ totals'.2 = (totals.2 + t)%Z.
Proof.
  destruct totals as [[t1 t2] tr]. unfold one_loop. intros Hrun.
  run_inv Hrun. injection Hrun as <- _.
  match goal with H : add_to _ _ _ = _ |- _ => apply add_to_Ok in H as (t & -> & ->) end.
  by exists t.
Qed.

Lemma repeat_acc_trials (td1 ea1 td2 ea2 nftt : pyval) (rounds : nat)
    (totals totals' : Z * Z * Z) s s' :
  repeat_acc rounds totals (one_loop td1 ea1 td2 ea2 nftt) s = (Ok totals', s') ->
  (rounds = 0 /\ totals' = totals /\ s' = s) \/
  (0 < rounds /\ exists t, nftt = PyInt t /\
     totals'.2 = (totals.2 + Z.of_nat rounds * t)%Z).
Proof.
  revert totals s. induction rounds as [|rounds IH]; intros totals s Hrun.
  - left. by injection Hrun as <- <-.
  - right. split; [lia|]. simpl in Hrun.
    apply Run_bind_Ok in Hrun as (totals1 & s1 & Hone & Hrest).
    apply one_loop_trials in Hone as (t & -> & Ht).
    exists t. split; [done|].
    destruct (IH _ _ Hrest) as [(-> & -> & _)|(_ & t' & [= <-] & ->)]; lia.
Qed.

(** What a returning run went through. *)
Lemma eval_self_teaching_Ok (settings : gmap string pyval) s (r : string) s' :
  eval_self_teaching settings s = (Ok r, s') ->
  exists (n t a b x y : Z),
    settings !! "num_loops" = Some (PyInt n) /\
    settings !! "num_final_test_trials" = Some (PyInt t) /\
    (0 < n)%Z /\ t <> 0%Z /\
    round_percent a (n * t) = Ok x /\ round_percent b (n * t) = Ok y /\
    r = nl +:+ "eval_self_teaching" +:+ nl +:+
        ("Overall task 1 success rate:  " +:+ pretty x +:+ "%") +:+ nl +:+
        ("Overall task 2 success rate:  " +:+ pretty y +:+ "%").
Proof.
  unfold eval_self_teaching. intros Hrun. run_inv Hrun.
  injection Hrun as <- _.
  repeat match goal with
  | H : subscript _ _ _ = _ |- _ => apply subscript_Ok in H as [? ->]
  | H : range_len _ _ = _ |- _ => apply range_len_Ok in H as (n & -> & -> & ->)
  | H : success_rate _ _ _ = _ |- _ => apply success_rate_Ok in H as (? & ? & ->)
  | H : format_int _ _ _ = _ |- _ => injection H as <- <-
  end.
  match goal with H : repeat_acc _ _ _ _ = _ |- _ =>
    apply repeat_acc_trials in H as [(Hz & [= -> -> ->] & _)|(Hpos & t & -> & Htr)] end;
    [done|].
  simpl in Htr. subst.
  assert (0 < n)%Z as Hn by lia.
  rewrite Z2Nat.id, Z.add_0_l in * by lia.
  exists n, t. do 4 eexists.
  split_and!; last reflexivity; try done; try eassumption.
  intros ->. lia.
Qed.

(** X13: when [num_loops] and [num_final_test_trials] are ints,
    [eval_self_teaching] returns a result only if [num_loops] is above 0
    and [num_final_test_trials] is not 0, whatever the collaborators do. *)
Theorem eval_returns_only_with_rounds (settings : gmap string pyval) s
    (r : string) s' (n t : Z) :
  settings !! "num_loops" = Some (PyInt n) ->
  settings !! "num_final_test_trials" = Some (PyInt t) ->
  eval_self_teaching settings s = (Ok r, s') ->
  (0 < n)%Z /\ t <> 0%Z.
Proof.
  intros Hn Ht Hrun.
  destruct (eval_self_teaching_Ok settings s r s' Hrun)
    as (n' & t' & _ & _ & _ & _ & Hn' & Ht' & Hpos & Hnz & _).
  assert (n' = n) as <- by congruence. assert (t' = t) as <- by congruence.
  done.
Qed.
(** X15: with [num_loops] at 0 or below, once the settings and the two task
    files are read and the memory is reset, [eval_self_teaching] raises
    [ZeroDivisionError], in the state the reset left: it has trained and
    tested nothing, and [leave_function] is not called. *)
Theorem eval_no_rounds (settings : gmap string pyval) s (n : Z)
    (trials file1 file2 : pyval) (dict1 dict2 : gmap string pyval)
    (task1 answer1 task2 answer2 : pyval) s1 s2 s3 :
  settings !! "num_loops" = Some (PyInt n) -> (n <= 0)%Z ->
  settings !! "num_final_test_trials" = Some trials ->
  settings !! "task_file_1" = Some file1 ->
  settings !! "task_file_2" = Some file2 ->
  load_yaml_file file1 (Grader_new (logger_enter_function s)) = (Ok dict1, s1) ->
  dict1 !! "task_description" = Some task1 ->
  dict1 !! "expected_answer" = Some answer1 ->
  load_yaml_file file2 s1 = (Ok dict2, s2) ->
  dict2 !! "task_description" = Some task2 ->
  dict2 !! "expected_answer" = Some answer2 ->
  reset_memory s2 = (Ok tt, s3) ->
  eval_self_teaching settings s = (Err ZeroDivisionError, s3).
Proof.
  intros Hn Hle Ht Hf1 Hf2 Hl1 Htd1 Hea1 Hl2 Htd2 Hea2 Hreset.
  unfold eval_self_teaching, mbind, Run_bind, subscript, tell.
  rewrite Hn, Ht. simpl. rewrite Hf1. simpl. rewrite Hl1, Htd1. simpl.
  rewrite Hea1. simpl. rewrite Hf2. simpl. rewrite Hl2, Htd2. simpl.
  rewrite Hea2. simpl. rewrite Hreset.
  replace (Z.to_nat n) with 0 by lia. reflexivity.
Qed.

End EvalFacts.

(** ** The calls an evaluation makes *)

Lemma lab_calls_app (es1 es2 : list event) :
  lab_calls (es1 ++ es2) = (lab_calls es1 ++ lab_calls es2)%list.
Proof. unfold lab_calls. apply List.filter_app. Qed.


Section Recording.
Variable rounding : Z -> Z -> result Z.

Lemma recording_one_loop (task1 answer1 task2 answer2 : pyval) (t : Z)
    (totals : Z * Z * Z) (files : gmap string (gmap string pyval))
    (a1 a2 : Z * Z) (rest : list (Z * Z)) (tr : list event) :
  rated rounding a1 -> rated rounding a2 ->
  exists tr',
    one_loop (LB := recording_with rounding) task1 answer1 task2 answer2 (PyInt t) totals
      (mkLab files (a1 :: a2 :: rest) tr)
    = (Ok ((totals.1.1 + a1.1)%Z, (totals.1.2 + a2.1)%Z, (totals.2 + t)%Z),
       mkLab files rest (tr ++ tr')) /\
    lab_calls tr' = round_calls task1 answer1 task2 answer2 t.
Proof.
  destruct totals as [[t1 t2] tt], a1 as [n1 d1], a2 as [n2 d2]. simpl.
  intros [Hd1 [p1 Hp1]] [Hd2 [p2 Hp2]]. simpl in *.
  unfold one_loop, mbind, Run_bind, success_rate, tell. simpl.
  destruct (Z.eqb_spec d1 0) as [|_]; [done|]. rewrite Hp1. simpl.
  destruct (Z.eqb_spec d2 0) as [|_]; [done|]. rewrite Hp2. simpl.
  unfold record. simpl. rewrite <- !app_assoc. simpl.
  eexists. split; [reflexivity|]. reflexivity.
Qed.

Lemma recording_rounds (task1 answer1 task2 answer2 : pyval) (t : Z)
    (k : nat) (totals : Z * Z * Z) (files : gmap string (gmap string pyval))
    (ans : list (Z * Z)) (tr : list event) :
  2 * k <= length ans -> Forall (rated rounding) (take (2 * k) ans) ->
  exists tr',
    repeat_acc k totals
      (one_loop (LB := recording_with rounding)
                task1 answer1 task2 answer2 (PyInt t))
      (mkLab files ans tr)
    = (Ok ((totals.1.1 + (successes (take (2 * k) ans)).1)%Z,
           (totals.1.2 + (successes (take (2 * k) ans)).2)%Z,
           (totals.2 + Z.of_nat k * t)%Z),
       mkLab files (drop (2 * k) ans) (tr ++ tr')) /\
    lab_calls tr' =
      concat (replicate k (round_calls task1 answer1 task2 answer2 t)).
Proof.
  revert totals ans tr. induction k as [|k IH]; intros [[t1 t2] tt] ans tr Hlen Hnz.
  - exists []. rewrite app_nil_r. simpl. by rewrite !Z.add_0_r.
  - destruct ans as [|a1 [|a2 rest]]; simpl in Hlen; [lia|lia|].
    replace (2 * Datatypes.S k) with (Datatypes.S (Datatypes.S (2 * k))) in * by lia.
    cbn [take drop successes] in *.
    apply Forall_cons in Hnz as [Ha1 Hnz]. apply Forall_cons in Hnz as [Ha2 Hnz].
    destruct (recording_one_loop task1 answer1 task2 answer2 t (t1, t2, tt) files
                a1 a2 rest tr Ha1 Ha2) as (tr1 & Hone & Hcalls1).
    destruct (IH ((t1 + a1.1)%Z, (t2 + a2.1)%Z, (tt + t)%Z)
                rest (tr ++ tr1)%list) as (tr' & Hrest & Hcalls); [lia|done|].
    exists (tr1 ++ tr')%list. split.
    + change (repeat_acc (Datatypes.S k) ?tot ?b)
        with (totals1' ← b tot; repeat_acc k totals1' b).
      unfold mbind, Run_bind at 1. cbn [fst snd] in Hone, Hrest. rewrite Hone, Hrest.
      destruct (successes (take (2 * k) rest)) as [s1 s2]. cbn [fst snd].
      rewrite app_assoc.
      replace (t1 + a1.1 + s1)%Z with (t1 + (a1.1 + s1))%Z by lia.
      replace (t2 + a2.1 + s2)%Z with (t2 + (a2.1 + s2))%Z by lia.
      replace (tt + t + Z.of_nat k * t)%Z
        with (tt + Z.of_nat (Datatypes.S k) * t)%Z by lia.
      reflexivity.
    + rewrite lab_calls_app, Hcalls1, Hcalls. done.
Qed.

(** A whole evaluation in the recording laboratory. *)
Lemma recording_eval (settings : gmap string pyval)
    (files : gmap string (gmap string pyval)) (ans : list (Z * Z))
    (n t x y : Z) (file1 file2 : string) (dict1 dict2 : gmap string pyval)
    (task1 answer1 task2 answer2 : pyval) :
  settings !! "num_loops" = Some (PyInt n) ->
  settings !! "num_final_test_trials" = Some (PyInt t) ->
  settings !! "task_file_1" = Some (PyStr file1) ->
  settings !! "task_file_2" = Some (PyStr file2) ->
  files !! file1 = Some dict1 -> files !! file2 = Some dict2 ->
  dict1 !! "task_description" = Some task1 ->
  dict1 !! "expected_answer" = Some answer1 ->
  dict2 !! "task_description" = Some task2 ->
  dict2 !! "expected_answer" = Some answer2 ->
  (0 < n)%Z -> t <> 0%Z ->
  2 * Z.to_nat n <= length ans -> Forall (rated rounding) (take (2 * Z.to_nat n) ans) ->
  rounding (successes (take (2 * Z.to_nat n) ans)).1 (n * t) = Ok x ->
  rounding (successes (take (2 * Z.to_nat n) ans)).2 (n * t) = Ok y ->
  exists s',
    eval_self_teaching (LB := recording_with rounding) settings (mkLab files ans [])
      = (Ok (results_text x y), s') /\
    lab_calls (trace s') =
      ResetMemory ::
      concat (replicate (Z.to_nat n) (round_calls task1 answer1 task2 answer2 t)) /\
    answers s' = drop (2 * Z.to_nat n) ans.
Proof.
  intros Hn Ht Hf1 Hf2 Hd1 Hd2 Htd1 Hea1 Htd2 Hea2 Hpos Hnz Hlen Hans Hx Hy.
  unfold eval_self_teaching, mbind, Run_bind, subscript, tell.
  rewrite Hn, Ht. simpl. rewrite Hf1. simpl. rewrite Hd1. rewrite Htd1. simpl.
  rewrite Hea1. simpl. rewrite Hf2. simpl. rewrite Hd2. rewrite Htd2. simpl.
  rewrite Hea2. simpl.
  destruct (recording_rounds task1 answer1 task2 answer2 t (Z.to_nat n) (0, 0, 0)%Z
              files ans
              [EnterFunction; NewGrader; LoadYaml (PyStr file1);
               LoadYaml (PyStr file2); ResetMemory] Hlen Hans)
    as (tr' & Hloop & Hcalls).
  cbn [fst snd] in Hloop. rewrite !Z.add_0_l, Z2Nat.id in Hloop by lia.
  unfold record. cbn [task_files answers trace app]. rewrite Hloop.
  unfold success_rate.
  destruct (Z.eqb_spec (n * t) 0) as [Hz|_]; [nia|].
  cbn [round_percent recording_with]. rewrite Hx.
  cbn [round_percent recording_with]. rewrite Hy. simpl.
  eexists. split; [reflexivity|]. simpl. split; [|done].
  rewrite <- !app_assoc, !lab_calls_app, Hcalls. simpl. by rewrite app_nil_r.
Qed.

(** X14: in a laboratory where no call fails and every rate can be
    computed, [eval_self_teaching] returns the text
    "\neval_self_teaching\nOverall task 1 success rate:  X%\nOverall task 2
    success rate:  Y%", where X is the rounded percentage of the successes
    the grader reported for the first task, summed over the rounds, in
    [num_loops * num_final_test_trials], the trials asked for (not the
    trials the grader reported), and Y the same for the second task. *)
Theorem eval_overall_rates (settings : gmap string pyval)
    (files : gmap string (gmap string pyval)) (ans : list (Z * Z))
    (n t x y : Z) (file1 file2 : string) (dict1 dict2 : gmap string pyval)
    (task1 answer1 task2 answer2 : pyval) :
  settings !! "num_loops" = Some (PyInt n) ->
  settings !! "num_final_test_trials" = Some (PyInt t) ->
  settings !! "task_file_1" = Some (PyStr file1) ->
  settings !! "task_file_2" = Some (PyStr file2) ->
  files !! file1 = Some dict1 -> files !! file2 = Some dict2 ->
  dict1 !! "task_description" = Some task1 ->
  dict1 !! "expected_answer" = Some answer1 ->
  dict2 !! "task_description" = Some task2 ->
  dict2 !! "expected_answer" = Some answer2 ->
  (0 < n)%Z -> t <> 0%Z ->
  2 * Z.to_nat n <= length ans ->
  Forall (rated rounding) (take (2 * Z.to_nat n) ans) ->
  rounding (successes (take (2 * Z.to_nat n) ans)).1 (n * t) = Ok x ->
  rounding (successes (take (2 * Z.to_nat n) ans)).2 (n * t) = Ok y ->
  (eval_self_teaching (LB := recording_with rounding) settings
     (mkLab files ans [])).1
  = Ok (nl +:+ "eval_self_teaching" +:+ nl +:+
        ("Overall task 1 success rate:  " +:+ pretty x +:+ "%") +:+ nl +:+
        ("Overall task 2 success rate:  " +:+ pretty y +:+ "%")).
Proof.
  intros Hn Ht Hf1 Hf2 Hd1 Hd2 Htd1 Hea1 Htd2 Hea2 Hpos Hnz Hlen Hans Hx Hy.
  destruct (recording_eval settings files ans n t x y file1 file2 dict1 dict2
              task1 answer1 task2 answer2 Hn Ht Hf1 Hf2 Hd1 Hd2 Htd1 Hea1
              Htd2 Hea2 Hpos Hnz Hlen Hans Hx Hy) as (s' & -> & _).
  reflexivity.
Qed.

(** X16: in a laboratory where no call fails and every rate can be
    computed, [eval_self_teaching] returns, and its calls to the apprentice
    and the grader are: one [reset_memory], then per round a
    [train_on_task] on the first task, a test on the first task and a test
    on the second, each for [num_final_test_trials] trials; it consumes two
    grader reports per round. *)
Theorem eval_protocol (settings : gmap string pyval)
    (files : gmap string (gmap string pyval)) (ans : list (Z * Z))
    (n t x y : Z) (file1 file2 : string) (dict1 dict2 : gmap string pyval)
    (task1 answer1 task2 answer2 : pyval) :
  settings !! "num_loops" = Some (PyInt n) ->
  settings !! "num_final_test_trials" = Some (PyInt t) ->
  settings !! "task_file_1" = Some (PyStr file1) ->
  settings !! "task_file_2" = Some (PyStr file2) ->
  files !! file1 = Some dict1 -> files !! file2 = Some dict2 ->
  dict1 !! "task_description" = Some task1 ->
  dict1 !! "expected_answer" = Some answer1 ->
  dict2 !! "task_description" = Some task2 ->
  dict2 !! "expected_answer" = Some answer2 ->
  (0 < n)%Z -> t <> 0%Z ->
  2 * Z.to_nat n <= length ans ->
  Forall (rated rounding) (take (2 * Z.to_nat n) ans) ->
  rounding (successes (take (2 * Z.to_nat n) ans)).1 (n * t) = Ok x ->
  rounding (successes (take (2 * Z.to_nat n) ans)).2 (n * t) = Ok y ->
  exists r s',
    eval_self_teaching (LB := recording_with rounding) settings
      (mkLab files ans []) = (Ok r, s') /\
    lab_calls (trace s') =
      ResetMemory ::
      concat (replicate (Z.to_nat n) (round_calls task1 answer1 task2 answer2 t)) /\
    answers s' = drop (2 * Z.to_nat n) ans.
Proof.
  intros Hn Ht Hf1 Hf2 Hd1 Hd2 Htd1 Hea1 Htd2 Hea2 Hpos Hnz Hlen Hans Hx Hy.
  destruct (recording_eval settings files ans n t x y file1 file2 dict1 dict2
              task1 answer1 task2 answer2 Hn Ht Hf1 Hf2 Hd1 Hd2 Htd1 Hea1
              Htd2 Hea2 Hpos Hnz Hlen Hans Hx Hy) as (s' & Hrun & Hcalls & Hans').
  by exists (results_text x y), s'.
Qed.

End Recording.

(** * The further theorems at work *)

Lemma empty_heap_numbered : counter_is_size empty_heap /\ well_numbered empty_heap.
Proof.
  split; [by vm_compute|]. intros key [ins Hins].
  change (uid_insight_dict (self empty_heap)) with (∅ : gmap string Insight) in Hins.
  by rewrite lookup_empty in Hins.
Qed.

Lemma after_three_calls_run :
  run_calls three_calls empty_heap = (Return tt, after_three_calls).
Proof. vm_compute. reflexivity. Qed.

Lemma after_three_calls_numbered :
  counter_is_size after_three_calls /\ well_numbered after_three_calls.
Proof.
  destruct empty_heap_numbered as [Hsz Hwn].
  exact (run_calls_numbered three_calls empty_heap after_three_calls
           after_three_calls_run Hsz Hwn).
Qed.

Lemma constructor_starts_empty_witness :
  exists h,
    KnowledgeArchive_new 0 true "tmp/memory" "run1" misnumbered_world = (Return tt, h) /\
    uid_insight_dict (self h) = ∅ /\ last_insight_id (self h) = 0 /\
    path_to_dict (self h)
    = snapshot_path (Blob := list (string * Insight)) "tmp/memory" "run1".
Proof.
  apply (constructor_starts_empty 0 true "tmp/memory" "run1" misnumbered_world).
  left. reflexivity.
Defined.

Lemma add_then_reload_witness :
  exists h2,
    KnowledgeArchive_new 0 false "tmp/memory" "run1"
      (world (run_call (AddDemonstration "T" "D" ["x"]) empty_heap).2)
      = (Return tt, h2) /\
    uid_insight_dict (self h2) =
      uid_insight_dict (self (run_call (AddDemonstration "T" "D" ["x"]) empty_heap).2) /\
    last_insight_id (self h2) =
      size (uid_insight_dict
              (self (run_call (AddDemonstration "T" "D" ["x"]) empty_heap).2)).
Proof.
  apply (add_then_reload 0 "tmp/memory" "run1" (AddDemonstration "T" "D" ["x"])
           empty_heap _ items_pickle_faithful); vm_compute; reflexivity.
Defined.

Lemma add_keeps_entries_witness :
  uid_insight_dict
    (self (run_call (AddDemonstration "T2" "D2" []) after_three_calls).2) !! "1"
  = Some (mkInsight "1" "carry an umbrella" None ["weather"; "rain"]).
Proof.
  apply (add_keeps_entries (AddDemonstration "T2" "D2" []) after_three_calls _
           (proj2 after_three_calls_numbered)); vm_compute; reflexivity.
Defined.

Lemma add_keeps_key_is_id_witness :
  id (mkInsight "4" (demo_text "T2" "D2") (Some "T2") []) = "4".
Proof.
  apply (add_keeps_key_is_id (AddDemonstration "T2" "D2" []) after_three_calls
           (run_call (AddDemonstration "T2" "D2" []) after_three_calls).2).
  - intros key ins Hins.
    destruct (run_calls_from three_calls empty_heap after_three_calls
                after_three_calls_run) as (_ & Hnew & _ & Hdom).
    destruct (Hdom key) as [[? Hin]|(k & Hk & ->)]; [by eexists| |].
    + change (uid_insight_dict (self empty_heap)) with (∅ : gmap string Insight) in Hin.
      by rewrite lookup_empty in Hin.
    + destruct (three_calls !! k) as [c|] eqn:Hc;
        [|apply lookup_ge_None in Hc; simpl in Hk, Hc; lia].
      destruct (Hnew k c Hc) as (ins' & Hins' & Hid & _).
      change (last_insight_id (self empty_heap)) with 0 in *. congruence.
  - vm_compute. reflexivity.
  - vm_compute. reflexivity.
Defined.

Lemma ids_continue_witness :
  last_insight_id (self (run_calls three_calls misnumbered_heap).2)
    = last_insight_id (self misnumbered_heap) + length three_calls /\
  (forall k c, three_calls !! k = Some c ->
     exists ins,
       uid_insight_dict (self (run_calls three_calls misnumbered_heap).2)
         !! str (last_insight_id (self misnumbered_heap) + k + 1) = Some ins /\
       id ins = str (last_insight_id (self misnumbered_heap) + k + 1) /\
       stored_by c ins) /\
  (forall j, j <= last_insight_id (self misnumbered_heap) ->
     uid_insight_dict (self (run_calls three_calls misnumbered_heap).2) !! str j
     = uid_insight_dict (self misnumbered_heap) !! str j).
Proof.
  apply (ids_continue three_calls misnumbered_heap). vm_compute. reflexivity.
Defined.

Lemma numbering_survives_reload_witness :
  exists h1 h2,
    save_archive after_three_calls = (Return tt, h1) /\
    KnowledgeArchive_new 0 false "tmp/memory" "run1" (world h1) = (Return tt, h2) /\
    self h2 = self after_three_calls /\ counter_is_size h2 /\ well_numbered h2.
Proof.
  apply (numbering_survives_reload 0 "tmp/memory" "run1" after_three_calls
           items_pickle_faithful).
  - vm_compute. reflexivity.
  - apply after_three_calls_numbered.
  - apply after_three_calls_numbered.
Defined.

Lemma sessions_as_one_witness :
  exists h h1,
    KnowledgeArchive_new 0 false "tmp/memory" "run1"
      (run_sessions "tmp/memory" "run1" three_sessions example_world).2
      = (Return tt, h) /\
    run_session "tmp/memory" "run1" (concat three_sessions) example_world
      = (Return tt, h1) /\
    self h = self h1 /\
    last_insight_id (self h) = length (concat three_sessions).
Proof.
  apply (sessions_as_one "tmp/memory" "run1" three_sessions example_world _
           items_pickle_faithful); vm_compute; reflexivity.
Defined.

Lemma eval_no_rounds_witness :
  exists s3,
    eval_self_teaching (<["num_loops" := PyInt 0]> example_settings) example_lab
    = (Err ZeroDivisionError, s3) /\
    trace s3 = [EnterFunction; NewGrader; LoadYaml (PyStr "task1.yaml");
                LoadYaml (PyStr "task2.yaml"); ResetMemory].
Proof.
  eexists. split.
  - apply (eval_no_rounds (<["num_loops" := PyInt 0]> example_settings) example_lab 0
             (PyInt 4) (PyStr "task1.yaml") (PyStr "task2.yaml")
             (example_task "add 2 and 3" "5") (example_task "add 4 and 5" "9")
             (PyStr "add 2 and 3") (PyStr "5") (PyStr "add 4 and 5") (PyStr "9")
             (record (LoadYaml (PyStr "task1.yaml"))
                (record NewGrader (record EnterFunction example_lab)))
             (record (LoadYaml (PyStr "task2.yaml"))
                (record (LoadYaml (PyStr "task1.yaml"))
                   (record NewGrader (record EnterFunction example_lab)))));
      try (vm_compute; reflexivity). lia.
  - vm_compute. reflexivity.
Defined.

Lemma example_reports_rated :
  Forall (rated (fun a b => Ok (nearest_percent a b)))
    (take (2 * Z.to_nat 2) [(1, 4); (0, 4); (3, 4); (2, 4)]%Z).
Proof. repeat constructor; simpl; (lia || by eexists). Qed.

Lemma eval_returns_only_with_rounds_witness : (0 < 2)%Z /\ 4%Z <> 0%Z.
Proof.
  apply (eval_returns_only_with_rounds example_settings example_lab
           (results_text 50 25)
           (eval_self_teaching example_settings example_lab).2 2 4);
    vm_compute; reflexivity.
Defined.

Lemma eval_overall_rates_witness :
  (eval_self_teaching (LB := recording_Lab) example_settings example_lab).1
  = Ok (nl +:+ "eval_self_teaching" +:+ nl +:+
        ("Overall task 1 success rate:  " +:+ pretty 50%Z +:+ "%") +:+ nl +:+
        ("Overall task 2 success rate:  " +:+ pretty 25%Z +:+ "%")).
Proof.
  apply (eval_overall_rates (fun a b => Ok (nearest_percent a b))
           example_settings _ [(1, 4); (0, 4); (3, 4); (2, 4)]%Z 2 4 50 25
           "task1.yaml" "task2.yaml"
           (example_task "add 2 and 3" "5") (example_task "add 4 and 5" "9")
           (PyStr "add 2 and 3") (PyStr "5") (PyStr "add 4 and 5") (PyStr "9"));
    try (vm_compute; reflexivity); try (simpl; lia);
    try exact example_reports_rated.
Defined.

Lemma eval_protocol_witness :
  exists r s',
    eval_self_teaching (LB := recording_Lab) example_settings example_lab
      = (Ok r, s') /\
    lab_calls (trace s') =
      ResetMemory ::
      concat (replicate (Z.to_nat 2)
                (round_calls (PyStr "add 2 and 3") (PyStr "5")
                             (PyStr "add 4 and 5") (PyStr "9") 4)) /\
    answers s' = drop (2 * Z.to_nat 2) [(1, 4); (0, 4); (3, 4); (2, 4)]%Z.
Proof.
  apply (eval_protocol (fun a b => Ok (nearest_percent a b))
           example_settings _ [(1, 4); (0, 4); (3, 4); (2, 4)]%Z 2 4 50 25
           "task1.yaml" "task2.yaml"
           (example_task "add 2 and 3" "5") (example_task "add 4 and 5" "9"));
    try (vm_compute; reflexivity); try (simpl; lia);
    try exact example_reports_rated.
Defined.
